(** * terraform-provider-ollama: the provider's reconciliation contract

    A shallow embedding of [internal/provider] (provider.go, domain.go,
    ollama_model_resource.go, ollama_model_data_source.go) and the
    properties of its lifecycle callbacks.

    Conventions of the embedding:
    - a Go callback [f(ctx, req, resp *Response)] that mutates [resp] is a
      function from the request and the response as handed in to the
      response as left behind;
    - the process environment is a finite map from names to values;
    - the daemon behind [*api.Client] is an arbitrary state machine (class
      [Daemon]); every call the provider issues is appended to a call log;
    - a method call through a nil [*api.Client] is a runtime panic;
    - [tflog.Debug] lines only write to the log sink and are left out. *)

From Stdlib Require Import ZArith.
From stdpp Require Import base option list strings gmap.

Local Open Scope Z_scope.

(** ** Framework values: [types.String], [types.Int64], [types.List] *)

Inductive types_String : Type :=
| StringNull
| StringUnknown
| StringValue (s : string).

Inductive types_Int64 : Type :=
| Int64Null
| Int64Unknown
| Int64Value (n : Z).

Inductive types_List : Type :=
| ListNull
| ListUnknown
| ListValue (elems : list types_String).

Definition IsNull (v : types_String) : bool :=
  match v with StringNull => true | _ => false end.

Definition IsUnknown (v : types_String) : bool :=
  match v with StringUnknown => true | _ => false end.

(** [ValueString] is the known value, and the empty string for a null or
    unknown one. *)
Definition ValueString (v : types_String) : string :=
  match v with StringValue s => s | _ => EmptyString end.

Definition Elements (v : types_List) : list types_String :=
  match v with ListValue elems => elems | _ => [] end.

(** ** Package [diag]: diagnostics *)

Module diag.

Inductive Severity : Type := SeverityError | SeverityWarning.

(** [attribute] is the root attribute a diagnostic is attached to
    ([path.Root(name)]), when it has one. *)
Record Diagnostic : Type := mkDiagnostic {
  severity : Severity;
  summary : string;
  detail : string;
  attribute : option string
}.

#[global] Instance Severity_eq_dec : EqDecision Severity.
Proof. solve_decision. Defined.

#[global] Instance Diagnostic_eq_dec : EqDecision Diagnostic.
Proof. solve_decision. Defined.

Definition Diagnostics : Type := list Diagnostic.

Definition NewErrorDiagnostic (sum det : string) : Diagnostic :=
  mkDiagnostic SeverityError sum det None.

Definition NewAttributeErrorDiagnostic (root sum det : string) : Diagnostic :=
  mkDiagnostic SeverityError sum det (Some root).

Definition Contains (diags : list Diagnostic) (d : Diagnostic) : bool :=
  bool_decide (d ∈ diags).

(** [Diagnostics.Append] skips a diagnostic the collection already
    holds. *)
Definition Append (diags : list Diagnostic) (new : list Diagnostic) : list Diagnostic :=
  fold_left (fun acc d => if Contains acc d then acc else acc ++ [d]) new diags.

Definition isError (d : Diagnostic) : bool :=
  match severity d with SeverityError => true | SeverityWarning => false end.

Definition HasError (diags : list Diagnostic) : bool := existsb isError diags.

Definition AddError (diags : list Diagnostic) (sum det : string) : list Diagnostic :=
  Append diags [NewErrorDiagnostic sum det].

End diag.

(** ** [tfsdk.Config], [tfsdk.Plan], [tfsdk.State]

    The raw value is either null ([None]) or an object that decodes into
    the Go struct of the schema.  [Get] into a struct cannot represent a
    null object: it reports a conversion error and leaves the target at its
    zero value. *)

Class Zero (T : Type) : Type := zero : T.

Definition tfsdk_Data (T : Type) : Type := option T.

Definition nullValueDiagnostic : diag.Diagnostic :=
  diag.NewErrorDiagnostic "Value Conversion Error"
    "Received null value, however the target type cannot handle null values.".

Definition Get {T : Type} `{Zero T} (data : tfsdk_Data T) : list diag.Diagnostic * T :=
  match data with
  | Some v => ([], v)
  | None => ([nullValueDiagnostic], zero)
  end.

(** [State.Set] (here [Set_]) with a struct of the schema's shape stores
    it and reports nothing; [State.RemoveResource] makes the raw value
    null.  The stored struct keeps a nil slice and an empty one apart, as
    the state does: nil becomes a null list, empty an empty list. *)
Definition Set_ {T : Type} (v : T) : list diag.Diagnostic * tfsdk_Data T := ([], Some v).

Definition RemoveResource {T : Type} : tfsdk_Data T := None.

(** ** Go's [error]

    The errors coming back from the client: an [api.StatusError] carrying
    the HTTP status code, or an error of any other dynamic type.  [Error]
    is the text of [err.Error()]. *)
Inductive error : Type :=
| StatusError (StatusCode : Z) (text : string)
| OtherError (text : string).

Definition Error (e : error) : string :=
  match e with StatusError _ text => text | OtherError text => text end.

(** ** Go slices

    A slice is nil ([None]) or holds elements.  [range] and [len] see a nil
    slice as empty; [append] always yields a non-nil slice. *)

Definition slice (A : Type) : Type := option (list A).

Definition elems {A : Type} (s : slice A) : list A := default [] s.

Definition append {A : Type} (s : slice A) (x : A) : slice A :=
  Some (elems s ++ [x]).

(** [types.ListValueFrom(ctx, types.StringType, xs)] for [xs []string]: a
    nil slice becomes the null list, any other slice the list of its
    elements in order; strings always convert, so no diagnostic arises. *)
Definition ListValueFrom (xs : slice string) : types_List * list diag.Diagnostic :=
  match xs with
  | None => (ListNull, [])
  | Some l => (ListValue (StringValue <$> l), [])
  end.

(** ** Package [api] of the ollama SDK: the messages the provider uses *)

Module api.

(** The client handle, bound to the daemon's base URL. *)
Record Client : Type := mkClient { base : string }.

(** [time.Time]: wall and monotonic readings and the location name. *)
Record Time : Type := mkTime { wall : Z; ext : Z; loc : string }.

Module ProgressResponse.
Record t : Type := mk {
  Status : string; Digest : string; Total : Z; Completed : Z
}.
End ProgressResponse.

(** The callback type of [Client.Pull]. *)
Definition PullProgressFunc : Type := ProgressResponse.t -> option error.

(** Only [Stream] and [Name] are set by the provider; the other fields of
    the request stay at their zero values. *)
Module PullRequest.
Record t : Type := mk { Stream : option bool; Name : string }.
End PullRequest.

Module DeleteRequest.
Record t : Type := mk { Model : string }.
End DeleteRequest.

Module ShowRequest.
Record t : Type := mk { Model : string }.
End ShowRequest.

Module ModelDetails.
Record t : Type := mk {
  Format : string;
  Family : string;
  Families : slice string;
  ParameterSize : string;
  QuantizationLevel : string
}.
End ModelDetails.

Module ShowResponse.
Record t : Type := mk {
  License : string;
  Modelfile : string;
  Parameters : string;
  Template : string;
  Details : ModelDetails.t;
  ModifiedAt : Time
}.
End ShowResponse.

Module ListModelResponse.
Record t : Type := mk {
  Name : string;
  Model : string;
  ModifiedAt : Time;
  Size : Z;
  Digest : string;
  Details : ModelDetails.t
}.
End ListModelResponse.

Module ListResponse.
Record t : Type := mk { Models : slice ListModelResponse.t }.
End ListResponse.

(** The four requests a client can send, as they appear in the call
    log. *)
Inductive Call : Type :=
| CallPull (req : PullRequest.t)
| CallDelete (req : DeleteRequest.t)
| CallShow (req : ShowRequest.t)
| CallList.

End api.

(** ** Go's [any]

    A value of interface type [any] as the Configure callbacks see it: the
    nil interface, a [*api.Client] (itself possibly a nil pointer), or a
    value of some other dynamic type, of which only the [%T] rendering is
    used. *)
Inductive any : Type :=
| AnyNil
| AnyClientPtr (p : option api.Client)
| AnyOther (typeName : string).

(** ** The daemon and the client methods

    The daemon answers each request from its own state.  Nothing is
    assumed about how: the properties below hold for every instance. *)

Class Daemon (D : Type) : Type := {
  servePull : api.Client -> api.PullRequest.t -> api.PullProgressFunc -> D -> option error * D;
  serveDelete : api.Client -> api.DeleteRequest.t -> D -> option error * D;
  serveShow : api.Client -> api.ShowRequest.t -> D -> (error + api.ShowResponse.t) * D;
  serveList : api.Client -> D -> (error + api.ListResponse.t) * D
}.

Record World (D : Type) : Type := mkWorld {
  daemon : D;
  calls : list api.Call
}.

Arguments mkWorld {D} _ _.
Arguments daemon {D} _.
Arguments calls {D} _.

(** A callback runs against the world and either panics ([None]) or
    returns a value and the world it leaves. *)
Definition M (D A : Type) : Type := World D -> option (A * World D).

Definition ret {D A : Type} (a : A) : M D A := fun w => Some (a, w).

Definition bind {D A B : Type} (m : M D A) (k : A -> M D B) : M D B :=
  fun w => match m w with
           | Some (a, w') => k a w'
           | None => None
           end.

Definition panic {D A : Type} : M D A := fun _ => None.

Notation "'let*' x ':=' c 'in' k" := (bind c (fun x => k))
  (at level 10, x name, c at level 100, k at level 200).

(** Methods of [*api.Client]; the receiver may be the nil pointer. *)
Module Client.
Section Methods.

Context {D : Type} `{Daemon D}.

(** One round trip: log the call, let the daemon answer. *)
Definition roundTrip {A : Type} (call : api.Call) (serve : D -> A * D) : M D A :=
  fun w =>
    let '(a, d) := serve (daemon w) in
    Some (a, mkWorld d (calls w ++ [call])).

Definition Pull (c : option api.Client) (req : api.PullRequest.t)
    (fn : api.PullProgressFunc) : M D (option error) :=
  match c with
  | None => panic
  | Some c => roundTrip (api.CallPull req) (servePull c req fn)
  end.

Definition Delete (c : option api.Client) (req : api.DeleteRequest.t) : M D (option error) :=
  match c with
  | None => panic
  | Some c => roundTrip (api.CallDelete req) (serveDelete c req)
  end.

Definition Show (c : option api.Client) (req : api.ShowRequest.t)
    : M D (error + api.ShowResponse.t) :=
  match c with
  | None => panic
  | Some c => roundTrip (api.CallShow req) (serveShow c req)
  end.

Definition List (c : option api.Client) : M D (error + api.ListResponse.t) :=
  match c with
  | None => panic
  | Some c => roundTrip api.CallList (serveList c)
  end.

End Methods.
End Client.

(** ** domain.go *)

Module OllamaModelResource.
Record t : Type := mk {
  Name : types_String;
  ModifiedAt : types_String;
  Size : types_Int64;
  Digest : types_String
}.
End OllamaModelResource.

Module OllamaModelDetails.
Record t : Type := mk {
  Format : types_String;
  Family : types_String;
  Families : types_List;
  ParameterSize : types_String;
  QuantizationLevel : types_String
}.
End OllamaModelDetails.

Module OllamaModel.
Record t : Type := mk {
  Name : types_String;
  ModifiedAt : types_String;
  Size : types_Int64;
  Digest : types_String;
  Details : OllamaModelDetails.t
}.
End OllamaModel.

#[global] Instance OllamaModelResource_zero : Zero OllamaModelResource.t :=
  OllamaModelResource.mk StringNull StringNull Int64Null StringNull.

(** ** provider.go *)

Record OllamaProviderModel : Type := mkOllamaProviderModel {
  Host : types_String
}.

#[global] Instance OllamaProviderModel_zero : Zero OllamaProviderModel :=
  mkOllamaProviderModel StringNull.

Module Provider.

(** The process environment is a [gmap string string].  [os.Getenv] gives
    the empty string when the variable is not set. *)
Definition Getenv (env : gmap string string) (key : string) : string :=
  default EmptyString (env !! key).

(** Does the string hold the byte? *)
Fixpoint holdsByte (b : Ascii.ascii) (s : string) : bool :=
  match s with
  | EmptyString => false
  | String a rest => Ascii.eqb a b || holdsByte b rest
  end.

(** [os.Setenv].  An empty name, a name holding [=] (byte 61) or a NUL byte, and a
    value holding a NUL byte are refused: the call returns an error
    (EINVAL) and the environment stays as it is.  Otherwise the variable
    is set and the error is nil. *)
Definition Setenv (key value : string) (env : gmap string string)
    : gmap string string * option error :=
  if String.eqb key EmptyString
     || holdsByte (Ascii.ascii_of_nat 61) key
     || holdsByte Ascii.zero key
     || holdsByte Ascii.zero value
  then (env, Some (OtherError "setenv: invalid argument"))
  else (<[key := value]> env, None).

Definition OLLAMA_HOST : string := "OLLAMA_HOST".

Record ConfigureRequest : Type := mkConfigureRequest {
  Config : tfsdk_Data OllamaProviderModel
}.

Record ConfigureResponse : Type := mkConfigureResponse {
  Diagnostics : list diag.Diagnostic;
  DataSourceData : any;
  ResourceData : any
}.

Definition withDiags (resp : ConfigureResponse) (d : list diag.Diagnostic) : ConfigureResponse :=
  mkConfigureResponse d (DataSourceData resp) (ResourceData resp).

Definition unknownHostDiagnostic : diag.Diagnostic :=
  diag.NewAttributeErrorDiagnostic "host"
    "Unknown HashiCups API Host"
    ("The provider cannot create the HashiCups API client as there is an unknown configuration value for the HashiCups API host. "
     +:+ "Either target apply the source of the value first, set the value statically in the configuration, or use the HASHICUPS_HOST environment variable.").

Definition missingHostDiagnostic : diag.Diagnostic :=
  diag.NewAttributeErrorDiagnostic "host"
    "Missing HashiCups API Host"
    ("The provider cannot create the HashiCups API client as there is a missing or empty value for the HashiCups API host. "
     +:+ "Set the host value in the configuration or use the HASHICUPS_HOST environment variable. "
     +:+ "If either is already set, ensure the value is not empty.").

Definition clientErrorDiagnostic : diag.Diagnostic :=
  diag.NewAttributeErrorDiagnostic "host"
    "Error creating ollama client"
    ("The provider cannot create the ollama API client as there is a missing or empty value for the OLLAMA_HOST or ollama host. "
     +:+ "Set the host value in the configuration or use the OLLAMA_HOST environment variable. "
     +:+ "If either is already set, ensure the value is not empty or broken.").

(** Lines 72-76: the environment value, overridden by the configured
    value whenever that one is not null. *)
Definition resolveHost (env : gmap string string) (config : OllamaProviderModel) : string :=
  let host := Getenv env OLLAMA_HOST in
  if negb (IsNull (Host config)) then ValueString (Host config) else host.

Section Configure.

(** [api.ClientFromEnvironment] of the ollama SDK: it reads the process
    environment and yields a client or an error. *)
Variable ClientFromEnvironment : gmap string string -> error + api.Client.

Definition Configure (req : ConfigureRequest) (resp : ConfigureResponse)
    (env : gmap string string) : ConfigureResponse * gmap string string :=
  let '(diags, config) := Get (Config req) in
  let resp := withDiags resp (diag.Append (Diagnostics resp) diags) in
  let resp :=
    if IsUnknown (Host config)
    then withDiags resp (diag.Append (Diagnostics resp) [unknownHostDiagnostic])
    else resp in
  if diag.HasError (Diagnostics resp) then (resp, env) else
  let host := resolveHost env config in
  let resp :=
    if String.eqb host EmptyString
    then withDiags resp (diag.Append (Diagnostics resp) [missingHostDiagnostic])
    else resp in
  if diag.HasError (Diagnostics resp) then (resp, env) else
  let '(env, _) := Setenv OLLAMA_HOST host env in
  let '(client, err) :=
    match ClientFromEnvironment env with
    | inl e => (None, Some e)
    | inr c => (Some c, None)
    end in
  let resp :=
    match err with
    | Some _ => withDiags resp (diag.Append (Diagnostics resp) [clientErrorDiagnostic])
    | None => resp
    end in
  if diag.HasError (Diagnostics resp) then (resp, env) else
  (mkConfigureResponse (Diagnostics resp) (AnyClientPtr client) (AnyClientPtr client), env).

End Configure.

End Provider.

(** ** ollama_model_resource.go *)

Module Resource.

Definition PullResponseFn (rsp : api.ProgressResponse.t) : option error := None.

Record ollamaModelResource : Type := mkResource {
  client : option api.Client
}.

Definition NewOllamaModelResource : ollamaModelResource := mkResource None.

Module ConfigureRequest.
Record t : Type := mk { ProviderData : any }.
End ConfigureRequest.

Module ConfigureResponse.
Record t : Type := mk { Diagnostics : list diag.Diagnostic }.
End ConfigureResponse.

Definition Configure (r : ollamaModelResource) (req : ConfigureRequest.t)
    (resp : ConfigureResponse.t) : ollamaModelResource * ConfigureResponse.t :=
  match ConfigureRequest.ProviderData req with
  | AnyNil => (r, resp)
  | AnyClientPtr client => (mkResource client, resp)
  | AnyOther typeName =>
      (r, ConfigureResponse.mk
            (diag.AddError (ConfigureResponse.Diagnostics resp)
               "Unexpected Data Source Configure Type"
               ("Expected *api.Client, got: " +:+ typeName
                +:+ ". Please report this issue to the provider developers.")))
  end.

Module MetadataRequest.
Record t : Type := mk { ProviderTypeName : string }.
End MetadataRequest.

Module MetadataResponse.
Record t : Type := mk { TypeName : string }.
End MetadataResponse.

(** Metadata returns the resource type name. *)
Definition Metadata (r : ollamaModelResource) (req : MetadataRequest.t)
    (resp : MetadataResponse.t) : MetadataResponse.t :=
  MetadataResponse.mk (MetadataRequest.ProviderTypeName req +:+ "_model").

Module CreateRequest.
Record t : Type := mk { Plan : tfsdk_Data OllamaModelResource.t }.
End CreateRequest.

Module ReadRequest.
Record t : Type := mk { State : tfsdk_Data OllamaModelResource.t }.
End ReadRequest.

Module UpdateRequest.
Record t : Type := mk {
  Plan : tfsdk_Data OllamaModelResource.t;
  State : tfsdk_Data OllamaModelResource.t
}.
End UpdateRequest.

Module DeleteRequest.
Record t : Type := mk { State : tfsdk_Data OllamaModelResource.t }.
End DeleteRequest.

(** [resource.CreateResponse], [ReadResponse], [UpdateResponse] and
    [DeleteResponse] agree on the two fields the callbacks touch. *)
Module Response.
Record t : Type := mk {
  State : tfsdk_Data OllamaModelResource.t;
  Diagnostics : list diag.Diagnostic
}.
End Response.

(** [resp.Diagnostics.Append(diags...)] *)
Definition appendDiags (resp : Response.t) (diags : list diag.Diagnostic) : Response.t :=
  Response.mk (Response.State resp) (diag.Append (Response.Diagnostics resp) diags).

(** [resp.Diagnostics.AddError(summary, detail)] *)
Definition addError (resp : Response.t) (sum det : string) : Response.t :=
  Response.mk (Response.State resp) (diag.AddError (Response.Diagnostics resp) sum det).

(** [diags = resp.State.Set(ctx, v); resp.Diagnostics.Append(diags...)] *)
Definition setState (resp : Response.t) (v : OllamaModelResource.t) : Response.t :=
  let '(diags, st) := Set_ v in
  appendDiags (Response.mk st (Response.Diagnostics resp)) diags.

(** [apiErr, ok := err.(api.StatusError); ok && apiErr.StatusCode == 404] *)
Definition isNotFound (err : error) : bool :=
  match err with
  | StatusError code _ => code =? 404
  | OtherError _ => false
  end.

Section Callbacks.

Context {D : Type} `{Daemon D}.

Definition Create (r : ollamaModelResource) (req : CreateRequest.t)
    (resp : Response.t) : M D Response.t :=
  let '(diags, plan) := Get (CreateRequest.Plan req) in
  let resp := appendDiags resp diags in
  if diag.HasError (Response.Diagnostics resp) then ret resp else
  let noStream := false in
  let ollamaReq :=
    api.PullRequest.mk (Some noStream) (ValueString (OllamaModelResource.Name plan)) in
  let* err := Client.Pull (client r) ollamaReq PullResponseFn in
  match err with
  | Some err =>
      ret (addError resp "Error pulling model"
             ("Could not pull model, unexpected error: " +:+ Error err))
  | None => ret (setState resp plan)
  end.

Definition Read (r : ollamaModelResource) (req : ReadRequest.t)
    (resp : Response.t) : M D Response.t :=
  let '(diags, state) := Get (ReadRequest.State req) in
  let resp := appendDiags resp diags in
  if diag.HasError (Response.Diagnostics resp) then ret resp else
  let name := ValueString (OllamaModelResource.Name state) in
  let* shown := Client.Show (client r) (api.ShowRequest.mk name) in
  match shown with
  | inl err =>
      if isNotFound err
      then ret (Response.mk RemoveResource (Response.Diagnostics resp))
      else ret (addError resp "Error Reading Ollama Model"
                  ("Could not read ollama model " +:+ name +:+ ": " +:+ Error err))
  | inr ollamaModel => ret (setState resp state)
  end.

Definition Update (r : ollamaModelResource) (req : UpdateRequest.t)
    (resp : Response.t) : M D Response.t :=
  let '(diags, state) := Get (UpdateRequest.State req) in
  let resp := appendDiags resp diags in
  if diag.HasError (Response.Diagnostics resp) then ret resp else
  let '(diags, plan) := Get (UpdateRequest.Plan req) in
  let resp := appendDiags resp diags in
  if diag.HasError (Response.Diagnostics resp) then ret resp else
  let oldName := ValueString (OllamaModelResource.Name state) in
  let* err := Client.Delete (client r) (api.DeleteRequest.mk oldName) in
  match err with
  | Some err =>
      ret (addError resp "Error deleting Ollama Model"
             ("Could not delete ollama model " +:+ oldName +:+ ": " +:+ Error err))
  | None =>
      let noStream := false in
      let ollamaReq :=
        api.PullRequest.mk (Some noStream) (ValueString (OllamaModelResource.Name plan)) in
      let* err := Client.Pull (client r) ollamaReq PullResponseFn in
      match err with
      | Some err =>
          ret (addError resp "Error pulling model"
                 ("Could not pull model, unexpected error: " +:+ Error err))
      | None => ret (setState resp plan)
      end
  end.

Definition Delete (r : ollamaModelResource) (req : DeleteRequest.t)
    (resp : Response.t) : M D Response.t :=
  let '(diags, state) := Get (DeleteRequest.State req) in
  let resp := appendDiags resp diags in
  if diag.HasError (Response.Diagnostics resp) then ret resp else
  let name := ValueString (OllamaModelResource.Name state) in
  let* err := Client.Delete (client r) (api.DeleteRequest.mk name) in
  match err with
  | Some err =>
      ret (addError resp "Error deleting Ollama Model"
             ("Could not delete ollama model " +:+ name +:+ ": " +:+ Error err))
  | None => ret resp
  end.

End Callbacks.

End Resource.

(** ** ollama_model_data_source.go *)

Module OllamaModelDataSourceModel.
Record t : Type := mk { Models : slice OllamaModel.t }.
End OllamaModelDataSourceModel.

#[global] Instance OllamaModelDataSourceModel_zero : Zero OllamaModelDataSourceModel.t :=
  OllamaModelDataSourceModel.mk None.

Module DataSource.

Record OllamaModelDataSource : Type := mkDataSource {
  client : option api.Client
}.

Definition NewOllamaModelDataSource : OllamaModelDataSource := mkDataSource None.

Module ConfigureRequest.
Record t : Type := mk { ProviderData : any }.
End ConfigureRequest.

Module ConfigureResponse.
Record t : Type := mk { Diagnostics : list diag.Diagnostic }.
End ConfigureResponse.

Definition Configure (d : OllamaModelDataSource) (req : ConfigureRequest.t)
    (resp : ConfigureResponse.t) : OllamaModelDataSource * ConfigureResponse.t :=
  match ConfigureRequest.ProviderData req with
  | AnyNil => (d, resp)
  | AnyClientPtr client => (mkDataSource client, resp)
  | AnyOther typeName =>
      (d, ConfigureResponse.mk
            (diag.AddError (ConfigureResponse.Diagnostics resp)
               "Unexpected Data Source Configure Type"
               ("Expected *http.Client, got: " +:+ typeName
                +:+ ". Please report this issue to the provider developers.")))
  end.

Module MetadataRequest.
Record t : Type := mk { ProviderTypeName : string }.
End MetadataRequest.

Module MetadataResponse.
Record t : Type := mk { TypeName : string }.
End MetadataResponse.

Definition Metadata (d : OllamaModelDataSource) (req : MetadataRequest.t)
    (resp : MetadataResponse.t) : MetadataResponse.t :=
  MetadataResponse.mk (MetadataRequest.ProviderTypeName req +:+ "_model").

Module ReadRequest.
Record t : Type := mk { Config : tfsdk_Data OllamaModelDataSourceModel.t }.
End ReadRequest.

Module ReadResponse.
Record t : Type := mk {
  State : tfsdk_Data OllamaModelDataSourceModel.t;
  Diagnostics : list diag.Diagnostic
}.
End ReadResponse.

Definition appendDiags (resp : ReadResponse.t) (diags : list diag.Diagnostic) : ReadResponse.t :=
  ReadResponse.mk (ReadResponse.State resp) (diag.Append (ReadResponse.Diagnostics resp) diags).

Definition addError (resp : ReadResponse.t) (sum det : string) : ReadResponse.t :=
  ReadResponse.mk (ReadResponse.State resp) (diag.AddError (ReadResponse.Diagnostics resp) sum det).

Definition setState (resp : ReadResponse.t) (v : OllamaModelDataSourceModel.t) : ReadResponse.t :=
  let '(diags, st) := Set_ v in
  appendDiags (ReadResponse.mk st (ReadResponse.Diagnostics resp)) diags.

Section Read.

Context {D : Type} `{Daemon D}.

(** [time.Time.String] *)
Variable Time_String : api.Time -> string.

(** The [OllamaModel{...}] literal of the loop body. *)
Definition toOllamaModel (m : api.ListModelResponse.t) (families : types_List)
    : OllamaModel.t :=
  let details := api.ListModelResponse.Details m in
  OllamaModel.mk
    (StringValue (api.ListModelResponse.Name m))
    (StringValue (Time_String (api.ListModelResponse.ModifiedAt m)))
    (Int64Value (api.ListModelResponse.Size m))
    (StringValue (api.ListModelResponse.Digest m))
    (OllamaModelDetails.mk
       (StringValue (api.ModelDetails.Format details))
       (StringValue (api.ModelDetails.Family details))
       families
       (StringValue (api.ModelDetails.ParameterSize details))
       (StringValue (api.ModelDetails.QuantizationLevel details))).

(** The body of [for _, m := range rsp.Models]: one more entry on
    [data.Models], and the diagnostics of the families conversion on
    the response. *)
Definition rangeBody (acc : ReadResponse.t * OllamaModelDataSourceModel.t)
    (m : api.ListModelResponse.t) : ReadResponse.t * OllamaModelDataSourceModel.t :=
  let '(resp, data) := acc in
  let '(families, familiesDiags) :=
    ListValueFrom (api.ModelDetails.Families (api.ListModelResponse.Details m)) in
  let resp := appendDiags resp familiesDiags in
  (resp,
   OllamaModelDataSourceModel.mk
     (append (OllamaModelDataSourceModel.Models data) (toOllamaModel m families))).

Definition Read (d : OllamaModelDataSource) (req : ReadRequest.t)
    (resp : ReadResponse.t) : M D ReadResponse.t :=
  let '(diags, data) := Get (ReadRequest.Config req) in
  let resp := appendDiags resp diags in
  if diag.HasError (ReadResponse.Diagnostics resp) then ret resp else
  let* listed := Client.List (client d) in
  match listed with
  | inl err =>
      ret (addError resp "Client Error"
             ("Unable to read ollama models, got error: " +:+ Error err))
  | inr rsp =>
      let '(resp, data) :=
        fold_left rangeBody (elems (api.ListResponse.Models rsp)) (resp, data) in
      ret (setState resp data)
  end.

End Read.

End DataSource.

(** ** provider.go: the provider value, its metadata and what it offers *)

Module OllamaProvider.

Record t : Type := mk { version : string }.

Module MetadataResponse.
Record t : Type := mk { TypeName : string; Version : string }.
End MetadataResponse.

Definition Metadata (p : t) (resp : MetadataResponse.t) : MetadataResponse.t :=
  MetadataResponse.mk "ollama" (version p).

(** The constructors are Go closures without arguments. *)
Definition Resources (p : t) : list (unit -> Resource.ollamaModelResource) :=
  [fun _ => Resource.NewOllamaModelResource].

Definition DataSources (p : t) : list (unit -> DataSource.OllamaModelDataSource) :=
  [fun _ => DataSource.NewOllamaModelDataSource].

Definition New (version : string) : unit -> t :=
  fun _ => mk version.

End OllamaProvider.

(** ** An in-memory daemon

    A small daemon to run the callbacks on: its state is the list of the
    models it holds.  The empty name is rejected with status 400, a model
    it does not hold is answered with status 404. *)

Module Registry.

Definition t : Type := list api.ListModelResponse.t.

Definition llamaDetails : api.ModelDetails.t :=
  api.ModelDetails.mk "gguf" "llama" (Some ["llama"]) "7B" "Q4_0".

Definition pulled (name : string) : api.ListModelResponse.t :=
  api.ListModelResponse.mk name name (api.mkTime 0 0 "UTC") 3825819519 "sha256:78e26419b446" llamaDetails.

Definition holds (name : string) (reg : t) : bool :=
  existsb (fun m => String.eqb (api.ListModelResponse.Name m) name) reg.

Definition badRequest : error := StatusError 400 "invalid model name".
Definition notFound (name : string) : error :=
  StatusError 404 ("model '" +:+ name +:+ "' not found").

Definition pull (c : api.Client) (req : api.PullRequest.t) (fn : api.PullProgressFunc)
    (reg : t) : option error * t :=
  let name := api.PullRequest.Name req in
  if String.eqb name EmptyString then (Some badRequest, reg)
  else match fn (api.ProgressResponse.mk "success" EmptyString 0 0) with
       | Some err => (Some err, reg)
       | None => (None, if holds name reg then reg else reg ++ [pulled name])
       end.

Definition delete (c : api.Client) (req : api.DeleteRequest.t) (reg : t) : option error * t :=
  let name := api.DeleteRequest.Model req in
  if holds name reg
  then (None, filter (fun m => api.ListModelResponse.Name m ≠ name) reg)
  else (Some (notFound name), reg).

Definition show (c : api.Client) (req : api.ShowRequest.t) (reg : t)
    : (error + api.ShowResponse.t) * t :=
  let name := api.ShowRequest.Model req in
  if String.eqb name EmptyString then (inl badRequest, reg)
  else match find (fun m => String.eqb (api.ListModelResponse.Name m) name) reg with
       | Some m =>
           (inr (api.ShowResponse.mk "MIT" EmptyString EmptyString EmptyString
                   (api.ListModelResponse.Details m) (api.ListModelResponse.ModifiedAt m)), reg)
       | None => (inl (notFound name), reg)
       end.

Definition listAll (c : api.Client) (reg : t) : (error + api.ListResponse.t) * t :=
  (inr (api.ListResponse.mk (Some reg)), reg).

#[global] Instance daemon : Daemon t := {
  servePull := pull;
  serveDelete := delete;
  serveShow := show;
  serveList := listAll
}.

End Registry.

(** ** Concrete inputs *)

Module Examples.

(** A stand-in for [api.ClientFromEnvironment]: the client is bound to
    whatever [OLLAMA_HOST] holds. *)
Definition clientFromEnv (env : gmap string string) : error + api.Client :=
  inr (api.mkClient (Provider.Getenv env Provider.OLLAMA_HOST)).

Definition localhost : string := "http://localhost:11434".
Definition remote : string := "http://10.0.0.7:11434".

(** A host with a NUL byte in the middle. *)
Definition nulHost : string := "http://bad" +:+ String Ascii.zero "host:11434".

Definition envRemote : gmap string string :=
  {[ Provider.OLLAMA_HOST := remote; "HOME" := "/root" ]}.

Definition freshProviderResponse : Provider.ConfigureResponse :=
  Provider.mkConfigureResponse [] AnyNil AnyNil.

Definition configHost (h : types_String) : Provider.ConfigureRequest :=
  Provider.mkConfigureRequest (Some (mkOllamaProviderModel h)).

Definition handle : api.Client := api.mkClient localhost.

Definition configuredResource : Resource.ollamaModelResource :=
  Resource.mkResource (Some handle).

Definition configuredDataSource : DataSource.OllamaModelDataSource :=
  DataSource.mkDataSource (Some handle).

Definition named (name : string) : OllamaModelResource.t :=
  OllamaModelResource.mk (StringValue name) StringNull Int64Null StringNull.

Definition freshResponse : Resource.Response.t := Resource.Response.mk None [].

(** A world whose daemon holds the given models and has seen no call. *)
Definition holding (names : list string) : World Registry.t :=
  mkWorld (Registry.pulled <$> names) [].

(** A stand-in for [time.Time.String]. *)
Definition timeString (t : api.Time) : string := api.loc t.

Definition m1 : api.ListModelResponse.t :=
  api.ListModelResponse.mk "m1" "m1" (api.mkTime 0 0 "UTC") 42 "sha256:0a1b"
    (api.ModelDetails.mk "gguf" "a" (Some ["a"; "b"]) "7B" "Q4_0").

Definition listRequest : DataSource.ReadRequest.t :=
  DataSource.ReadRequest.mk (Some (OllamaModelDataSourceModel.mk None)).

Definition freshReadResponse : DataSource.ReadResponse.t :=
  DataSource.ReadResponse.mk None [].

(** What the data source stores for a daemon that lists [m1]. *)
Definition listedM1 : OllamaModelDataSourceModel.t :=
  OllamaModelDataSourceModel.mk
    (Some [DataSource.toOllamaModel timeString m1
             (ListValue [StringValue "a"; StringValue "b"])]).

(** The response [Create] leaves when the daemon rejects the empty name. *)
Definition rejected : Resource.Response.t :=
  Resource.Response.mk None
    [diag.NewErrorDiagnostic "Error pulling model"
       "Could not pull model, unexpected error: invalid model name"].

(** What the in-memory daemon shows for a model it pulled. *)
Definition shownPulled : api.ShowResponse.t :=
  api.ShowResponse.mk "MIT" EmptyString EmptyString EmptyString
    Registry.llamaDetails (api.mkTime 0 0 "UTC").

End Examples.

(** * Properties *)

(** ** Diagnostics *)

Section DiagFacts.

Implicit Types (d : diag.Diagnostic) (ds : list diag.Diagnostic).

Lemma Append_nil ds : diag.Append ds [] = ds.
Proof. reflexivity. Qed.

Lemma HasError_app ds1 ds2 :
  diag.HasError (ds1 ++ ds2) = diag.HasError ds1 || diag.HasError ds2.
Proof. unfold diag.HasError. apply existsb_app. Qed.

Lemma HasError_false_notin ds d :
  diag.HasError ds = false -> diag.isError d = true -> d ∉ ds.
Proof.
  intros Hnone Herr Hin.
  assert (diag.HasError ds = true) as Habs.
  { unfold diag.HasError. apply existsb_exists. exists d. split; [| exact Herr].
    now apply list_elem_of_In. }
  congruence.
Qed.

(** On a collection without errors an error diagnostic is always new. *)
Lemma Append_error ds d :
  diag.HasError ds = false -> diag.isError d = true ->
  diag.Append ds [d] = ds ++ [d].
Proof.
  intros Hnone Herr. unfold diag.Append, diag.Contains. simpl.
  rewrite bool_decide_eq_false_2; [reflexivity |].
  now apply HasError_false_notin.
Qed.

Lemma HasError_Append_error ds d :
  diag.isError d = true -> diag.HasError (diag.Append ds [d]) = true.
Proof.
  intros Herr. unfold diag.Append, diag.Contains. simpl.
  case_bool_decide as Hin.
  - unfold diag.HasError. apply existsb_exists. exists d.
    split; [now apply list_elem_of_In | exact Herr].
  - rewrite HasError_app. simpl. rewrite Herr. now rewrite orb_true_r.
Qed.

Lemma AddError_fresh ds sum det :
  diag.HasError ds = false ->
  diag.AddError ds sum det = ds ++ [diag.NewErrorDiagnostic sum det].
Proof. intros Hnone. now apply Append_error. Qed.

End DiagFacts.

(** ** Provider configuration *)

Section ProviderFacts.

Import Provider.

Variable ClientFromEnvironment : gmap string string -> error + api.Client.

(** [os.Setenv] on [OLLAMA_HOST]: the name is fine, so all depends on the
    value. *)
Lemma Setenv_host value env :
  Setenv OLLAMA_HOST value env
    = if holdsByte Ascii.zero value
      then (env, Some (OtherError "setenv: invalid argument"))
      else (<[OLLAMA_HOST := value]> env, None).
Proof. reflexivity. Qed.

Lemma Getenv_insert_eq (env : gmap string string) key value :
  Getenv (<[key := value]> env) key = value.
Proof. unfold Getenv. now rewrite lookup_insert_eq. Qed.

Lemma Getenv_Setenv_eq env value :
  holdsByte Ascii.zero value = false ->
  Getenv (fst (Setenv OLLAMA_HOST value env)) OLLAMA_HOST = value.
Proof. intros Hclean. rewrite Setenv_host, Hclean. apply Getenv_insert_eq. Qed.

Lemma eqb_empty_false (s : string) : s <> EmptyString -> String.eqb s EmptyString = false.
Proof. intros Hne. now apply String.eqb_neq. Qed.

(** What [Configure] does once the configuration decodes and its host is
    not unknown: everything hinges on the resolved host. *)
Lemma Configure_known req resp env config :
  Config req = Some config ->
  diag.HasError (Diagnostics resp) = false ->
  IsUnknown (Host config) = false ->
  Configure ClientFromEnvironment req resp env =
    let host := resolveHost env config in
    if String.eqb host EmptyString
    then (withDiags resp (Diagnostics resp ++ [missingHostDiagnostic]), env)
    else
      let env' := fst (Setenv OLLAMA_HOST host env) in
      (match ClientFromEnvironment env' with
       | inl _ => withDiags resp (Diagnostics resp ++ [clientErrorDiagnostic])
       | inr c => mkConfigureResponse (Diagnostics resp)
                    (AnyClientPtr (Some c)) (AnyClientPtr (Some c))
       end, env').
Proof.
  intros Hcfg Hnone Hknown. unfold Configure. rewrite Hcfg. cbn [Get].
  rewrite Hknown. destruct resp as [ds dsd rd].
  cbn [withDiags Diagnostics DataSourceData ResourceData] in *.
  rewrite Append_nil, Hnone. cbv zeta.
  destruct (String.eqb (resolveHost env config) EmptyString) eqn:Hhost;
    cbn [withDiags Diagnostics DataSourceData ResourceData].
  - rewrite HasError_Append_error by reflexivity.
    now rewrite Append_error by (assumption || reflexivity).
  - rewrite Hnone.
    destruct (Setenv OLLAMA_HOST (resolveHost env config) env) as [env' dropped].
    cbn [fst].
    destruct (ClientFromEnvironment _) as [e | c];
      cbn [withDiags Diagnostics DataSourceData ResourceData].
    + rewrite HasError_Append_error by reflexivity.
      now rewrite Append_error by (assumption || reflexivity).
    + now rewrite Hnone.
Qed.

Lemma resolveHost_value env config s :
  Host config = StringValue s -> resolveHost env config = s.
Proof. intros Hs. unfold resolveHost. now rewrite Hs. Qed.

Lemma resolveHost_null env config :
  Host config = StringNull -> resolveHost env config = Getenv env OLLAMA_HOST.
Proof. intros Hs. unfold resolveHost. now rewrite Hs. Qed.

(** C1. Host resolution: a configured host that is known and not empty
    is the resolved host whatever [OLLAMA_HOST] holds; with a null host
    and a non-empty [OLLAMA_HOST] the resolved host is the environment's
    value.  In both cases this is the host [Configure] goes on with: the
    value it hands to [os.Setenv], whose outcome is the environment it
    leaves. *)
Theorem Configure_resolves_host req resp env config :
  Config req = Some config ->
  diag.HasError (Diagnostics resp) = false ->
  (forall s, Host config = StringValue s -> s <> EmptyString ->
     resolveHost env config = s /\
     snd (Configure ClientFromEnvironment req resp env)
       = fst (Setenv OLLAMA_HOST s env))
  /\ (Host config = StringNull -> Getenv env OLLAMA_HOST <> EmptyString ->
     resolveHost env config = Getenv env OLLAMA_HOST /\
     snd (Configure ClientFromEnvironment req resp env)
       = fst (Setenv OLLAMA_HOST (Getenv env OLLAMA_HOST) env)).
Proof.
  intros Hcfg Hnone. split.
  - intros s Hs Hne.
    rewrite (Configure_known req resp env config Hcfg Hnone) by now rewrite Hs.
    cbv zeta. rewrite (resolveHost_value env config s Hs).
    rewrite (eqb_empty_false s Hne). cbn [snd].
    split; reflexivity.
  - intros Hs Hne.
    rewrite (Configure_known req resp env config Hcfg Hnone) by now rewrite Hs.
    cbv zeta. rewrite (resolveHost_null env config Hs).
    rewrite (eqb_empty_false _ Hne). cbn [snd].
    split; reflexivity.
Qed.

(** C2, as amended.  With a configuration that decodes and a host that
    is not unknown, [Configure] reports the missing host exactly when the
    resolved host is empty: the configured host is null and
    [OLLAMA_HOST] is unset or empty, or the configured host is the empty
    string, whatever [OLLAMA_HOST] holds. *)
Theorem Configure_missing_host_iff req resp env config :
  Config req = Some config ->
  diag.HasError (Diagnostics resp) = false ->
  IsUnknown (Host config) = false ->
  missingHostDiagnostic ∈ Diagnostics (fst (Configure ClientFromEnvironment req resp env))
  <-> (Host config = StringNull /\ Getenv env OLLAMA_HOST = EmptyString)
      \/ Host config = StringValue EmptyString.
Proof.
  intros Hcfg Hnone Hknown.
  rewrite (Configure_known req resp env config Hcfg Hnone Hknown). cbv zeta.
  assert (Hfresh : missingHostDiagnostic ∉ Diagnostics resp)
    by now apply HasError_false_notin.
  assert (Hempty : resolveHost env config = EmptyString <->
            (Host config = StringNull /\ Getenv env OLLAMA_HOST = EmptyString)
            \/ Host config = StringValue EmptyString).
  { unfold resolveHost. destruct (Host config) as [| | s]; cbn.
    - split; [intros E; left; now split | intros [[_ E] | E]; [exact E | discriminate]].
    - discriminate.
    - split; [intros E; right; now rewrite E | intros [[E _] | E]; [discriminate | now inversion E]]. }
  rewrite <- Hempty.
  destruct (String.eqb (resolveHost env config) EmptyString) eqn:Hhost; cbn [fst].
  - apply String.eqb_eq in Hhost. split; [intros _; exact Hhost |].
    intros _. destruct resp. cbn. apply elem_of_app. right. apply list_elem_of_singleton.
    reflexivity.
  - apply String.eqb_neq in Hhost. split; [| intros E; contradiction].
    intros Hin. exfalso.
    destruct (ClientFromEnvironment _) as [e | c]; destruct resp as [ds dsd rd];
      cbn in Hin, Hfresh.
    + apply elem_of_app in Hin as [Hin | Hin]; [contradiction |].
      apply list_elem_of_singleton in Hin. discriminate.
    + contradiction.
Qed.

(** C9.  [Configure] does not always store the resolved host.  When
    the host holds a NUL byte, [os.Setenv] refuses it; [Configure] drops
    that error, leaves [OLLAMA_HOST] as it was, builds the client from
    the environment as it was, and reports nothing about it. *)
Theorem Configure_drops_Setenv_error req resp env config :
  Config req = Some config ->
  diag.HasError (Diagnostics resp) = false ->
  IsUnknown (Host config) = false ->
  resolveHost env config <> EmptyString ->
  holdsByte Ascii.zero (resolveHost env config) = true ->
  Configure ClientFromEnvironment req resp env =
    (match ClientFromEnvironment env with
     | inl _ => withDiags resp (Diagnostics resp ++ [clientErrorDiagnostic])
     | inr c => mkConfigureResponse (Diagnostics resp)
                  (AnyClientPtr (Some c)) (AnyClientPtr (Some c))
     end, env)
  /\ snd (Setenv OLLAMA_HOST (resolveHost env config) env)
     = Some (OtherError "setenv: invalid argument").
Proof.
  intros Hcfg Hnone Hknown Hhost Hnul.
  rewrite (Configure_known req resp env config Hcfg Hnone Hknown). cbv zeta.
  rewrite (eqb_empty_false _ Hhost), Setenv_host, Hnul. split; reflexivity.
Qed.

(** X17. Once a host without NUL byte is resolved, [Configure] stores it
    in [OLLAMA_HOST] and builds the client from the environment so
    updated; no other variable changes.  A configured host of that kind
    therefore replaces whatever [OLLAMA_HOST] held. *)
Theorem Configure_exports_host req resp env config :
  Config req = Some config ->
  diag.HasError (Diagnostics resp) = false ->
  IsUnknown (Host config) = false ->
  resolveHost env config <> EmptyString ->
  holdsByte Ascii.zero (resolveHost env config) = false ->
  let host := resolveHost env config in
  let env' := <[OLLAMA_HOST := host]> env in
  Configure ClientFromEnvironment req resp env =
    (match ClientFromEnvironment env' with
     | inl _ => withDiags resp (Diagnostics resp ++ [clientErrorDiagnostic])
     | inr c => mkConfigureResponse (Diagnostics resp)
                  (AnyClientPtr (Some c)) (AnyClientPtr (Some c))
     end, env')
  /\ Getenv env' OLLAMA_HOST = host
  /\ (forall key, key <> OLLAMA_HOST -> env' !! key = env !! key)
  /\ (forall s, Host config = StringValue s -> Getenv env' OLLAMA_HOST = s).
Proof.
  intros Hcfg Hnone Hknown Hhost Hclean host env'.
  rewrite (Configure_known req resp env config Hcfg Hnone Hknown). cbv zeta.
  rewrite (eqb_empty_false _ Hhost), Setenv_host, Hclean. cbn [fst].
  split; [reflexivity |]. split; [apply Getenv_insert_eq |]. split.
  - intros key Hne. subst env'. now rewrite lookup_insert_ne.
  - intros s Hs. subst env' host. rewrite (resolveHost_value env config s Hs).
    apply Getenv_insert_eq.
Qed.

End ProviderFacts.

(** C1 at a configured host, with a different host in the environment. *)
Lemma Configure_resolves_host_witness :
  Provider.resolveHost Examples.envRemote (mkOllamaProviderModel (StringValue Examples.localhost))
    = Examples.localhost
  /\ snd (Provider.Configure Examples.clientFromEnv
            (Examples.configHost (StringValue Examples.localhost))
            Examples.freshProviderResponse Examples.envRemote)
     = fst (Provider.Setenv Provider.OLLAMA_HOST Examples.localhost Examples.envRemote).
Proof.
  apply (proj1 (Configure_resolves_host Examples.clientFromEnv
                  (Examples.configHost (StringValue Examples.localhost))
                  Examples.freshProviderResponse Examples.envRemote
                  (mkOllamaProviderModel (StringValue Examples.localhost))
                  eq_refl eq_refl)
           Examples.localhost eq_refl).
  discriminate.
Defined.

(** C2 as stated fails: the configured host is the empty string, the
    environment holds a usable host, and [Configure] still reports the
    missing host. *)
Lemma Configure_missing_host_counterexample :
  ~ (Provider.missingHostDiagnostic
       ∈ Provider.Diagnostics
           (fst (Provider.Configure Examples.clientFromEnv
                   (Examples.configHost (StringValue EmptyString))
                   Examples.freshProviderResponse Examples.envRemote))
     <-> ValueString (StringValue EmptyString) = EmptyString
         /\ Provider.Getenv Examples.envRemote Provider.OLLAMA_HOST = EmptyString).
Proof.
  intros [Hfails _].
  assert (Hrun : Provider.Diagnostics
            (fst (Provider.Configure Examples.clientFromEnv
                    (Examples.configHost (StringValue EmptyString))
                    Examples.freshProviderResponse Examples.envRemote))
          = [Provider.missingHostDiagnostic]) by reflexivity.
  rewrite Hrun in Hfails.
  destruct Hfails as [_ Henv]; [apply list_elem_of_singleton; reflexivity |].
  vm_compute in Henv. discriminate.
Qed.

(** C2 as amended, at that same input. *)
Lemma Configure_missing_host_iff_witness :
  Provider.missingHostDiagnostic
    ∈ Provider.Diagnostics
        (fst (Provider.Configure Examples.clientFromEnv
                (Examples.configHost (StringValue EmptyString))
                Examples.freshProviderResponse Examples.envRemote)).
Proof.
  apply (Configure_missing_host_iff Examples.clientFromEnv
           (Examples.configHost (StringValue EmptyString))
           Examples.freshProviderResponse Examples.envRemote
           (mkOllamaProviderModel (StringValue EmptyString))
           eq_refl eq_refl eq_refl).
  right. reflexivity.
Defined.

(** X17 at a configured host: [OLLAMA_HOST] is overwritten, [HOME] stays. *)
Lemma Configure_exports_host_witness :
  snd (Provider.Configure Examples.clientFromEnv
         (Examples.configHost (StringValue Examples.localhost))
         Examples.freshProviderResponse Examples.envRemote)
    = <[Provider.OLLAMA_HOST := Examples.localhost]> Examples.envRemote
  /\ Provider.Getenv
       (<[Provider.OLLAMA_HOST := Examples.localhost]> Examples.envRemote)
       Provider.OLLAMA_HOST = Examples.localhost
  /\ (<[Provider.OLLAMA_HOST := Examples.localhost]> Examples.envRemote) !! "HOME"
     = Examples.envRemote !! "HOME".
Proof.
  destruct (Configure_exports_host Examples.clientFromEnv
              (Examples.configHost (StringValue Examples.localhost))
              Examples.freshProviderResponse Examples.envRemote
              (mkOllamaProviderModel (StringValue Examples.localhost))
              eq_refl eq_refl eq_refl) as (Hrun & Hget & Hframe & _).
  - discriminate.
  - reflexivity.
  - split; [now rewrite Hrun |]. split; [exact Hget |].
    apply Hframe. discriminate.
Defined.

(** C9 at a configured host with a NUL byte in it: no diagnostic, the
    environment still names the other host, and the client handed out is
    bound to that other host. *)
Lemma Configure_drops_Setenv_error_witness :
  Provider.Configure Examples.clientFromEnv
    (Examples.configHost (StringValue Examples.nulHost))
    Examples.freshProviderResponse Examples.envRemote
  = (Provider.mkConfigureResponse []
       (AnyClientPtr (Some (api.mkClient Examples.remote)))
       (AnyClientPtr (Some (api.mkClient Examples.remote))),
     Examples.envRemote)
  /\ Provider.resolveHost Examples.envRemote
       (mkOllamaProviderModel (StringValue Examples.nulHost)) = Examples.nulHost
  /\ Provider.Getenv Examples.envRemote Provider.OLLAMA_HOST <> Examples.nulHost.
Proof.
  destruct (Configure_drops_Setenv_error Examples.clientFromEnv
              (Examples.configHost (StringValue Examples.nulHost))
              Examples.freshProviderResponse Examples.envRemote
              (mkOllamaProviderModel (StringValue Examples.nulHost))
              eq_refl eq_refl eq_refl) as (Hrun & _).
  - discriminate.
  - reflexivity.
  - split; [rewrite Hrun; reflexivity |]. split; [reflexivity | discriminate].
Defined.

(** ** Client round trips *)

Section ClientFacts.

Context {D : Type} `{Daemon D}.

Lemma bind_Some {A B : Type} (m : M D A) (k : A -> M D B) w a w' :
  m w = Some (a, w') -> bind m k w = k a w'.
Proof. intros Hm. unfold bind. now rewrite Hm. Qed.

Lemma roundTrip_run {A : Type} call (serve : D -> A * D) w :
  Client.roundTrip call serve w
    = Some (fst (serve (daemon w)), mkWorld (snd (serve (daemon w))) (calls w ++ [call])).
Proof. unfold Client.roundTrip. now destruct (serve (daemon w)). Qed.

Lemma Pull_run c req fn w :
  Client.Pull (Some c) req fn w
    = Some (fst (servePull c req fn (daemon w)),
            mkWorld (snd (servePull c req fn (daemon w))) (calls w ++ [api.CallPull req])).
Proof. apply roundTrip_run. Qed.

Lemma Delete_run c req w :
  Client.Delete (Some c) req w
    = Some (fst (serveDelete c req (daemon w)),
            mkWorld (snd (serveDelete c req (daemon w))) (calls w ++ [api.CallDelete req])).
Proof. apply roundTrip_run. Qed.

Lemma Show_run c req w :
  Client.Show (Some c) req w
    = Some (fst (serveShow c req (daemon w)),
            mkWorld (snd (serveShow c req (daemon w))) (calls w ++ [api.CallShow req])).
Proof. apply roundTrip_run. Qed.

Lemma List_run c w :
  Client.List (Some c) w
    = Some (fst (serveList c (daemon w)),
            mkWorld (snd (serveList c (daemon w))) (calls w ++ [api.CallList])).
Proof. apply roundTrip_run. Qed.

End ClientFacts.

(** ** The model resource *)

Section ResourceFacts.

Import Resource.

Context {D : Type} `{Daemon D}.

Lemma isNotFound_spec err :
  isNotFound err = true <-> exists text, err = StatusError 404 text.
Proof.
  destruct err as [code text | text]; cbn.
  - rewrite Z.eqb_eq. split.
    + intros ->. now exists text.
    + intros [text' E]. now inversion E.
  - split; [discriminate | intros [text' E]; discriminate].
Qed.

Lemma appendDiags_nil resp : appendDiags resp [] = resp.
Proof. now destruct resp. Qed.

Lemma setState_run resp v :
  setState resp v = Response.mk (Some v) (Response.Diagnostics resp).
Proof. reflexivity. Qed.

Lemma addError_run resp sum det :
  diag.HasError (Response.Diagnostics resp) = false ->
  addError resp sum det
    = Response.mk (Response.State resp)
        (Response.Diagnostics resp ++ [diag.NewErrorDiagnostic sum det]).
Proof. intros Hnone. unfold addError. now rewrite AddError_fresh. Qed.

(** Without a configured client the first daemon call panics. *)
Lemma Create_unconfigured_panics r req resp plan (w : World D) :
  client r = None ->
  CreateRequest.Plan req = Some plan ->
  diag.HasError (Response.Diagnostics resp) = false ->
  Create r req resp w = None.
Proof.
  intros Hclient Hplan Hnone. unfold Create. rewrite Hplan, Hclient. cbn [Get].
  now rewrite appendDiags_nil, Hnone.
Qed.

(** C4. [Create] sends one pull for the planned name with streaming
    switched off and nothing else.  When the daemon answers with an
    error, the response gains the diagnostic built from the error's text
    and its state is not written; otherwise the state becomes the plan,
    field for field. *)
Theorem Create_pull_then_persist r c req resp plan (w : World D) :
  client r = Some c ->
  CreateRequest.Plan req = Some plan ->
  diag.HasError (Response.Diagnostics resp) = false ->
  let pullReq :=
    api.PullRequest.mk (Some false) (ValueString (OllamaModelResource.Name plan)) in
  let answer := servePull c pullReq PullResponseFn (daemon w) in
  exists resp',
    Create r req resp w
      = Some (resp', mkWorld (snd answer) (calls w ++ [api.CallPull pullReq]))
    /\ match fst answer with
       | Some err =>
           Response.State resp' = Response.State resp
           /\ Response.Diagnostics resp'
              = Response.Diagnostics resp
                ++ [diag.NewErrorDiagnostic "Error pulling model"
                      ("Could not pull model, unexpected error: " +:+ Error err)]
       | None =>
           Response.State resp' = Some plan
           /\ Response.Diagnostics resp' = Response.Diagnostics resp
       end.
Proof.
  intros Hclient Hplan Hnone pullReq answer.
  unfold Create. rewrite Hplan, Hclient. cbn [Get].
  rewrite appendDiags_nil, Hnone. cbv zeta.
  rewrite (bind_Some _ _ _ _ _ (Pull_run c pullReq PullResponseFn w)).
  fold answer. destruct (fst answer) as [err |].
  - eexists. split; [reflexivity |]. now rewrite addError_run.
  - eexists. split; [reflexivity |]. now rewrite setState_run.
Qed.

(** C5. When the daemon answers the show call for the state's name with
    a status error of code 404, [Read] removes the resource from the
    state and adds no diagnostic. *)
Theorem Read_not_found_removes r c req resp state (w : World D) text :
  client r = Some c ->
  ReadRequest.State req = Some state ->
  diag.HasError (Response.Diagnostics resp) = false ->
  let showReq := api.ShowRequest.mk (ValueString (OllamaModelResource.Name state)) in
  fst (serveShow c showReq (daemon w)) = inl (StatusError 404 text) ->
  exists resp',
    Read r req resp w
      = Some (resp', mkWorld (snd (serveShow c showReq (daemon w)))
                       (calls w ++ [api.CallShow showReq]))
    /\ Response.State resp' = None
    /\ Response.Diagnostics resp' = Response.Diagnostics resp
    /\ diag.HasError (Response.Diagnostics resp') = false.
Proof.
  intros Hclient Hstate Hnone showReq Hshow.
  unfold Read. rewrite Hstate, Hclient. cbn [Get].
  rewrite appendDiags_nil, Hnone. cbv zeta.
  rewrite (bind_Some _ _ _ _ _ (Show_run c showReq w)).
  rewrite Hshow. cbn [isNotFound Z.eqb Pos.eqb].
  eexists. split; [reflexivity |]. cbn. auto.
Qed.

(** C6. Apart from the not-found answer, [Read] leaves the state as it
    was: on any other error it adds the diagnostic built from the
    error's text and does not write the state; on success it writes
    back the very state it was given, and nothing of what the daemon
    returned. *)
Theorem Read_keeps_state r c req resp state (w : World D) :
  client r = Some c ->
  ReadRequest.State req = Some state ->
  diag.HasError (Response.Diagnostics resp) = false ->
  let name := ValueString (OllamaModelResource.Name state) in
  let showReq := api.ShowRequest.mk name in
  let answer := serveShow c showReq (daemon w) in
  exists resp',
    Read r req resp w
      = Some (resp', mkWorld (snd answer) (calls w ++ [api.CallShow showReq]))
    /\ match fst answer with
       | inl err =>
           (forall text, err <> StatusError 404 text) ->
           Response.State resp' = Response.State resp
           /\ Response.Diagnostics resp'
              = Response.Diagnostics resp
                ++ [diag.NewErrorDiagnostic "Error Reading Ollama Model"
                      ("Could not read ollama model " +:+ name +:+ ": " +:+ Error err)]
       | inr shown =>
           Response.State resp' = ReadRequest.State req
           /\ Response.Diagnostics resp' = Response.Diagnostics resp
       end.
Proof.
  intros Hclient Hstate Hnone name showReq answer.
  unfold Read. rewrite Hstate, Hclient. cbn [Get].
  rewrite appendDiags_nil, Hnone. cbv zeta.
  rewrite (bind_Some _ _ _ _ _ (Show_run c showReq w)).
  fold name showReq answer. destruct (fst answer) as [err | shown].
  - destruct (isNotFound err) eqn:Hnf.
    + eexists. split; [reflexivity |]. intros Hother.
      apply isNotFound_spec in Hnf as [text E]. now destruct (Hother text).
    + eexists. split; [reflexivity |]. intros _. now rewrite addError_run.
  - eexists. split; [reflexivity |]. now rewrite setState_run.
Qed.

(** C3. [Update] sends the delete for the old name first.  If it fails,
    no pull is sent, the error becomes a diagnostic and the state is not
    written.  Otherwise the pull for the new name follows; if that one
    fails, the error becomes a diagnostic, the state is not written and
    nothing is sent to undo the delete; if it succeeds, the state
    becomes the plan. *)
Theorem Update_delete_then_pull r c req resp state plan (w : World D) :
  client r = Some c ->
  UpdateRequest.State req = Some state ->
  UpdateRequest.Plan req = Some plan ->
  diag.HasError (Response.Diagnostics resp) = false ->
  let oldName := ValueString (OllamaModelResource.Name state) in
  let deleteReq := api.DeleteRequest.mk oldName in
  let pullReq :=
    api.PullRequest.mk (Some false) (ValueString (OllamaModelResource.Name plan)) in
  let deleted := serveDelete c deleteReq (daemon w) in
  let pulled := servePull c pullReq PullResponseFn (snd deleted) in
  exists resp' w',
    Update r req resp w = Some (resp', w')
    /\ match fst deleted with
       | Some err =>
           w' = mkWorld (snd deleted) (calls w ++ [api.CallDelete deleteReq])
           /\ Response.State resp' = Response.State resp
           /\ Response.Diagnostics resp'
              = Response.Diagnostics resp
                ++ [diag.NewErrorDiagnostic "Error deleting Ollama Model"
                      ("Could not delete ollama model " +:+ oldName +:+ ": " +:+ Error err)]
       | None =>
           w' = mkWorld (snd pulled)
                  (calls w ++ [api.CallDelete deleteReq; api.CallPull pullReq])
           /\ match fst pulled with
              | Some err =>
                  Response.State resp' = Response.State resp
                  /\ Response.Diagnostics resp'
                     = Response.Diagnostics resp
                       ++ [diag.NewErrorDiagnostic "Error pulling model"
                             ("Could not pull model, unexpected error: " +:+ Error err)]
              | None =>
                  Response.State resp' = Some plan
                  /\ Response.Diagnostics resp' = Response.Diagnostics resp
              end
       end.
Proof.
  intros Hclient Hstate Hplan Hnone oldName deleteReq pullReq deleted pulled.
  unfold Update. rewrite Hstate, Hplan, Hclient. cbn [Get].
  rewrite !appendDiags_nil, Hnone. cbv zeta.
  rewrite (bind_Some _ _ _ _ _ (Delete_run c deleteReq w)).
  fold deleted. destruct (fst deleted) as [err |].
  - do 2 eexists. split; [reflexivity |]. now rewrite addError_run.
  - rewrite (bind_Some _ _ _ _ _ (Pull_run c pullReq PullResponseFn _)).
    cbn [daemon calls]. fold pulled. rewrite <- app_assoc. cbn [app].
    destruct (fst pulled) as [err |].
    + do 2 eexists. split; [reflexivity |]. now rewrite addError_run.
    + do 2 eexists. split; [reflexivity |]. now rewrite setState_run.
Qed.

End ResourceFacts.

(** ** The model list data source *)

Section DataSourceFacts.

Import DataSource.

Context {D : Type} `{Daemon D}.

Variable Time_String : api.Time -> string.

Local Abbreviation Models := OllamaModelDataSourceModel.Models.

(** The entry the loop builds from one daemon model. *)
Local Abbreviation entry m :=
  (toOllamaModel Time_String m
     (fst (ListValueFrom (api.ModelDetails.Families (api.ListModelResponse.Details m))))).

Lemma elems_Some {A : Type} (l : list A) : elems (Some l) = l.
Proof. reflexivity. Qed.

Lemma ListValueFrom_diags xs : snd (ListValueFrom xs) = [].
Proof. now destruct xs. Qed.

Lemma Elements_ListValueFrom xs :
  Elements (fst (ListValueFrom xs)) = StringValue <$> elems xs.
Proof. now destruct xs. Qed.

Lemma rangeBody_run resp data m :
  rangeBody Time_String (resp, data) m
    = (resp, OllamaModelDataSourceModel.mk (Some (elems (Models data) ++ [entry m]))).
Proof.
  unfold rangeBody.
  destruct (ListValueFrom _) as [families familiesDiags] eqn:Hfam.
  pose proof (ListValueFrom_diags
                (api.ModelDetails.Families (api.ListModelResponse.Details m))) as Hd.
  rewrite Hfam in Hd. cbn in Hd. subst familiesDiags.
  destruct resp. unfold appendDiags. cbn. reflexivity.
Qed.

(** The loop keeps the response and extends [data.Models] by one entry
    per daemon model, in the daemon's order. *)
Lemma range_run ms : forall resp data,
  fst (fold_left (rangeBody Time_String) ms (resp, data)) = resp
  /\ elems (Models (snd (fold_left (rangeBody Time_String) ms (resp, data))))
     = elems (Models data) ++ ((fun m => entry m) <$> ms).
Proof.
  induction ms as [| m ms IH]; intros resp data.
  - cbn. now rewrite app_nil_r.
  - cbn [fold_left]. rewrite rangeBody_run.
    destruct (IH resp (OllamaModelDataSourceModel.mk
                         (Some (elems (Models data) ++ [entry m])))) as [IHresp IHdata].
    split; [exact IHresp |].
    rewrite IHdata. cbn [OllamaModelDataSourceModel.Models].
    rewrite elems_Some, fmap_cons. now rewrite <- app_assoc.
Qed.

Lemma Read_listed d c req resp data0 rsp (w : World D) :
  client d = Some c ->
  ReadRequest.Config req = Some data0 ->
  diag.HasError (ReadResponse.Diagnostics resp) = false ->
  fst (serveList c (daemon w)) = inr rsp ->
  exists data',
    Read Time_String d req resp w
      = Some (ReadResponse.mk (Some data') (ReadResponse.Diagnostics resp),
              mkWorld (snd (serveList c (daemon w))) (calls w ++ [api.CallList]))
    /\ elems (Models data')
       = elems (Models data0) ++ ((fun m => entry m) <$> elems (api.ListResponse.Models rsp)).
Proof.
  intros Hclient Hcfg Hnone Hlist.
  unfold Read. rewrite Hcfg, Hclient. cbn [Get].
  assert (Hresp : appendDiags resp [] = resp) by now destruct resp.
  rewrite Hresp, Hnone.
  rewrite (bind_Some _ _ _ _ _ (List_run c w)). rewrite Hlist.
  destruct (range_run (elems (api.ListResponse.Models rsp)) resp data0) as [Hfst Hsnd].
  destruct (fold_left _ _ _) as [resp1 data1]. cbn [fst snd] in Hfst, Hsnd. subst resp1.
  exists data1. split; [| exact Hsnd]. reflexivity.
Qed.

(** C7. On a successful list call [Read] writes one entry per daemon
    model, in the daemon's order: as many entries as the response has
    models, the i-th built from the i-th model with every field and every
    details field set from it, and the families in the daemon's element
    order.  (The decoded configuration has no models: the attribute is
    computed only.) *)
Theorem Read_projects_in_order d c req resp data0 rsp (w : World D) :
  client d = Some c ->
  ReadRequest.Config req = Some data0 ->
  elems (Models data0) = [] ->
  diag.HasError (ReadResponse.Diagnostics resp) = false ->
  fst (serveList c (daemon w)) = inr rsp ->
  exists data',
    Read Time_String d req resp w
      = Some (ReadResponse.mk (Some data') (ReadResponse.Diagnostics resp),
              mkWorld (snd (serveList c (daemon w))) (calls w ++ [api.CallList]))
    /\ length (elems (Models data')) = length (elems (api.ListResponse.Models rsp))
    /\ forall (i : nat) m, elems (api.ListResponse.Models rsp) !! i = Some m ->
         exists e, elems (Models data') !! i = Some e
           /\ OllamaModel.Name e = StringValue (api.ListModelResponse.Name m)
           /\ OllamaModel.ModifiedAt e
              = StringValue (Time_String (api.ListModelResponse.ModifiedAt m))
           /\ OllamaModel.Size e = Int64Value (api.ListModelResponse.Size m)
           /\ OllamaModel.Digest e = StringValue (api.ListModelResponse.Digest m)
           /\ OllamaModelDetails.Format (OllamaModel.Details e)
              = StringValue (api.ModelDetails.Format (api.ListModelResponse.Details m))
           /\ OllamaModelDetails.Family (OllamaModel.Details e)
              = StringValue (api.ModelDetails.Family (api.ListModelResponse.Details m))
           /\ Elements (OllamaModelDetails.Families (OllamaModel.Details e))
              = StringValue
                  <$> elems (api.ModelDetails.Families (api.ListModelResponse.Details m))
           /\ OllamaModelDetails.ParameterSize (OllamaModel.Details e)
              = StringValue
                  (api.ModelDetails.ParameterSize (api.ListModelResponse.Details m))
           /\ OllamaModelDetails.QuantizationLevel (OllamaModel.Details e)
              = StringValue
                  (api.ModelDetails.QuantizationLevel (api.ListModelResponse.Details m)).
Proof.
  intros Hclient Hcfg Hempty Hnone Hlist.
  destruct (Read_listed d c req resp data0 rsp w Hclient Hcfg Hnone Hlist)
    as (data' & Hrun & Hdata).
  rewrite Hempty in Hdata. cbn [app] in Hdata.
  exists data'. split; [exact Hrun |]. rewrite Hdata. split.
  - apply length_fmap.
  - intros i m Hm. exists (entry m). split.
    + rewrite list_lookup_fmap, Hm. reflexivity.
    + cbn. rewrite Elements_ListValueFrom. repeat split.
Qed.


End DataSourceFacts.

(** ** Configure on the resource and on the data source *)

(** C10. With nil provider data both Configure callbacks return at once:
    no diagnostic, receiver untouched, so a new resource or data source
    keeps its nil client.  With a [*api.Client] they store it and add no
    diagnostic.  Only a value of another type makes them add the error
    diagnostic, and then the client is not stored. *)
Theorem Configure_provider_data :
  (forall r req resp,
      match Resource.ConfigureRequest.ProviderData req with
      | AnyNil => Resource.Configure r req resp = (r, resp)
      | AnyClientPtr p => Resource.Configure r req resp = (Resource.mkResource p, resp)
      | AnyOther typeName =>
          fst (Resource.Configure r req resp) = r
          /\ diag.NewErrorDiagnostic "Unexpected Data Source Configure Type"
               ("Expected *api.Client, got: " +:+ typeName
                +:+ ". Please report this issue to the provider developers.")
             ∈ Resource.ConfigureResponse.Diagnostics (snd (Resource.Configure r req resp))
      end)
  /\ (forall d req resp,
      match DataSource.ConfigureRequest.ProviderData req with
      | AnyNil => DataSource.Configure d req resp = (d, resp)
      | AnyClientPtr p => DataSource.Configure d req resp = (DataSource.mkDataSource p, resp)
      | AnyOther typeName =>
          fst (DataSource.Configure d req resp) = d
          /\ diag.NewErrorDiagnostic "Unexpected Data Source Configure Type"
               ("Expected *http.Client, got: " +:+ typeName
                +:+ ". Please report this issue to the provider developers.")
             ∈ DataSource.ConfigureResponse.Diagnostics (snd (DataSource.Configure d req resp))
      end)
  /\ (forall resp,
      Resource.client
        (fst (Resource.Configure Resource.NewOllamaModelResource
                (Resource.ConfigureRequest.mk AnyNil) resp)) = None)
  /\ (forall resp,
      DataSource.client
        (fst (DataSource.Configure DataSource.NewOllamaModelDataSource
                (DataSource.ConfigureRequest.mk AnyNil) resp)) = None).
Proof.
  assert (Hin : forall ds d, d ∈ diag.Append ds [d]).
  { intros ds d. unfold diag.Append, diag.Contains. cbn.
    case_bool_decide as Hd; [exact Hd |].
    apply elem_of_app. right. now apply list_elem_of_singleton. }
  repeat split.
  - intros r [pd] resp. unfold Resource.Configure. cbn.
    destruct pd; try reflexivity. split; [reflexivity | apply Hin].
  - intros d [pd] resp. unfold DataSource.Configure. cbn.
    destruct pd; try reflexivity. split; [reflexivity | apply Hin].
Qed.

(** ** Runs against the in-memory daemon *)

(** C4 at work: creating [llama2] on an empty daemon. *)
Lemma Create_pull_then_persist_witness :
  exists resp',
    Resource.Create Examples.configuredResource
      (Resource.CreateRequest.mk (Some (Examples.named "llama2")))
      Examples.freshResponse (Examples.holding [])
      = Some (resp',
              mkWorld [Registry.pulled "llama2"]
                [api.CallPull (api.PullRequest.mk (Some false) "llama2")])
    /\ Resource.Response.State resp' = Some (Examples.named "llama2")
    /\ Resource.Response.Diagnostics resp' = [].
Proof.
  destruct (Create_pull_then_persist (D := Registry.t)
              Examples.configuredResource Examples.handle
              (Resource.CreateRequest.mk (Some (Examples.named "llama2")))
              Examples.freshResponse (Examples.named "llama2") (Examples.holding [])
              eq_refl eq_refl eq_refl) as (resp' & Hrun & Hstate & Hdiags).
  exists resp'. split; [exact Hrun |]. split; [exact Hstate | exact Hdiags].
Defined.

(** C5 at work: reading [ghost-model], which the daemon does not hold. *)
Lemma Read_not_found_removes_witness :
  exists resp' w',
    Resource.Read Examples.configuredResource
      (Resource.ReadRequest.mk (Some (Examples.named "ghost-model")))
      (Resource.Response.mk (Some (Examples.named "ghost-model")) [])
      (Examples.holding ["llama2"])
      = Some (resp', w')
    /\ Resource.Response.State resp' = None
    /\ Resource.Response.Diagnostics resp' = [].
Proof.
  assert (Hshow :
    fst (serveShow Examples.handle (api.ShowRequest.mk "ghost-model")
           (daemon (Examples.holding ["llama2"])))
    = inl (StatusError 404 "model 'ghost-model' not found"))
    by (vm_compute; reflexivity).
  destruct (Read_not_found_removes (D := Registry.t)
              Examples.configuredResource Examples.handle
              (Resource.ReadRequest.mk (Some (Examples.named "ghost-model")))
              (Resource.Response.mk (Some (Examples.named "ghost-model")) [])
              (Examples.named "ghost-model") (Examples.holding ["llama2"])
              "model 'ghost-model' not found"
              eq_refl eq_refl eq_refl Hshow) as (resp' & Hrun & Hstate & Hdiags & _).
  exists resp'. eexists. split; [exact Hrun |]. split; [exact Hstate | exact Hdiags].
Defined.

(** C6 at work: reading [llama2], which the daemon holds. *)
Lemma Read_keeps_state_witness :
  exists resp' w',
    Resource.Read Examples.configuredResource
      (Resource.ReadRequest.mk (Some (Examples.named "llama2")))
      (Resource.Response.mk (Some (Examples.named "llama2")) [])
      (Examples.holding ["llama2"])
      = Some (resp', w')
    /\ Resource.Response.State resp' = Some (Examples.named "llama2")
    /\ Resource.Response.Diagnostics resp' = [].
Proof.
  destruct (Read_keeps_state (D := Registry.t)
              Examples.configuredResource Examples.handle
              (Resource.ReadRequest.mk (Some (Examples.named "llama2")))
              (Resource.Response.mk (Some (Examples.named "llama2")) [])
              (Examples.named "llama2") (Examples.holding ["llama2"])
              eq_refl eq_refl eq_refl) as (resp' & Hrun & Hstate & Hdiags).
  exists resp'. eexists. split; [exact Hrun |]. split; [exact Hstate | exact Hdiags].
Defined.

(** C3 at work: renaming [old-model] to [new-model]. *)
Lemma Update_delete_then_pull_witness :
  exists resp' w',
    Resource.Update Examples.configuredResource
      (Resource.UpdateRequest.mk (Some (Examples.named "new-model"))
         (Some (Examples.named "old-model")))
      (Resource.Response.mk (Some (Examples.named "old-model")) [])
      (Examples.holding ["old-model"])
      = Some (resp', w')
    /\ w' = mkWorld [Registry.pulled "new-model"]
              [api.CallDelete (api.DeleteRequest.mk "old-model");
               api.CallPull (api.PullRequest.mk (Some false) "new-model")]
    /\ Resource.Response.State resp' = Some (Examples.named "new-model").
Proof.
  destruct (Update_delete_then_pull (D := Registry.t)
              Examples.configuredResource Examples.handle
              (Resource.UpdateRequest.mk (Some (Examples.named "new-model"))
                 (Some (Examples.named "old-model")))
              (Resource.Response.mk (Some (Examples.named "old-model")) [])
              (Examples.named "old-model") (Examples.named "new-model")
              (Examples.holding ["old-model"])
              eq_refl eq_refl eq_refl eq_refl) as (resp' & w' & Hrun & Hw & Hstate & _).
  exists resp', w'. split; [exact Hrun |]. split; [exact Hw | exact Hstate].
Defined.

(** C7 at work: the daemon lists [m1], whose families are [a] then [b]. *)
Lemma Read_projects_in_order_witness :
  exists data' e,
    DataSource.Read Examples.timeString Examples.configuredDataSource
      Examples.listRequest Examples.freshReadResponse (mkWorld [Examples.m1] [])
      = Some (DataSource.ReadResponse.mk (Some data') [],
              mkWorld [Examples.m1] [api.CallList])
    /\ length (elems (OllamaModelDataSourceModel.Models data')) = 1%nat
    /\ elems (OllamaModelDataSourceModel.Models data') !! 0%nat = Some e
    /\ OllamaModel.Name e = StringValue "m1"
    /\ Elements (OllamaModelDetails.Families (OllamaModel.Details e))
       = [StringValue "a"; StringValue "b"].
Proof.
  assert (Hlist :
    fst (serveList Examples.handle (daemon (mkWorld [Examples.m1] [])))
    = inr (api.ListResponse.mk (Some [Examples.m1])))
    by (vm_compute; reflexivity).
  destruct (Read_projects_in_order (D := Registry.t) Examples.timeString
              Examples.configuredDataSource Examples.handle
              Examples.listRequest Examples.freshReadResponse
              (OllamaModelDataSourceModel.mk None)
              (api.ListResponse.mk (Some [Examples.m1])) (mkWorld [Examples.m1] [])
              eq_refl eq_refl eq_refl eq_refl Hlist) as (data' & Hrun & Hlen & Hnth).
  destruct (Hnth 0%nat Examples.m1 eq_refl)
    as (e & He & Hname & _ & _ & _ & _ & _ & Hfam & _).
  exists data', e. split; [exact Hrun |]. split; [exact Hlen |].
  split; [exact He |]. split; [exact Hname | exact Hfam].
Defined.



(** * Further properties of the callbacks *)

(** ** Diagnostics never shrink *)

Section DiagGrowth.

Implicit Types (d : diag.Diagnostic) (ds new : list diag.Diagnostic).

Lemma Append_cons ds d new :
  diag.Append ds (d :: new)
    = diag.Append (if diag.Contains ds d then ds else ds ++ [d]) new.
Proof. reflexivity. Qed.

Lemma Append_prefix new : forall ds, ds `prefix_of` diag.Append ds new.
Proof.
  induction new as [| d new IH]; intros ds.
  - rewrite Append_nil. reflexivity.
  - rewrite Append_cons. destruct (diag.Contains ds d).
    + apply IH.
    + transitivity (ds ++ [d]); [apply prefix_app_r; reflexivity | apply IH].
Qed.

Lemma HasError_elem ds d : d ∈ ds -> diag.isError d = true -> diag.HasError ds = true.
Proof.
  intros Hin Herr. unfold diag.HasError. apply existsb_exists. exists d.
  split; [now apply list_elem_of_In | exact Herr].
Qed.

Lemma HasError_Append new : forall ds,
  diag.HasError (diag.Append ds new) = diag.HasError ds || diag.HasError new.
Proof.
  induction new as [| d new IH]; intros ds.
  - rewrite Append_nil. cbn. now rewrite orb_false_r.
  - rewrite Append_cons, IH. unfold diag.Contains. case_bool_decide as Hin.
    + cbn [diag.HasError existsb]. destruct (diag.isError d) eqn:Herr; [| reflexivity].
      now rewrite (HasError_elem ds d Hin Herr).
    + rewrite HasError_app. cbn. rewrite orb_false_r. now rewrite orb_assoc.
Qed.

End DiagGrowth.

(** ** Provider configuration: what it leaves alone *)

Section ProviderFrame.

Import Provider.

Variable ClientFromEnvironment : gmap string string -> error + api.Client.

(** Every way [Configure] can end.  Either it stops at one of the two
    early checks, with the environment and both data fields as they were
    and an error among the diagnostics, or the host was resolved and
    handed to [os.Setenv], and the outcome is decided by the client
    construction on the environment that call left. *)
Lemma Configure_outcome req resp env :
  (snd (Configure ClientFromEnvironment req resp env) = env
   /\ diag.HasError (Diagnostics (fst (Configure ClientFromEnvironment req resp env))) = true
   /\ DataSourceData (fst (Configure ClientFromEnvironment req resp env)) = DataSourceData resp
   /\ ResourceData (fst (Configure ClientFromEnvironment req resp env)) = ResourceData resp)
  \/ exists config,
       Config req = Some config
       /\ diag.HasError (Diagnostics resp) = false
       /\ IsUnknown (Host config) = false
       /\ resolveHost env config <> EmptyString
       /\ Configure ClientFromEnvironment req resp env
          = (match ClientFromEnvironment
                     (fst (Setenv OLLAMA_HOST (resolveHost env config) env)) with
             | inl _ => withDiags resp (Diagnostics resp ++ [clientErrorDiagnostic])
             | inr c => mkConfigureResponse (Diagnostics resp)
                          (AnyClientPtr (Some c)) (AnyClientPtr (Some c))
             end, fst (Setenv OLLAMA_HOST (resolveHost env config) env)).
Proof.
  destruct (Config req) as [config |] eqn:Hcfg.
  - destruct (diag.HasError (Diagnostics resp)) eqn:Hnone.
    + left. unfold Configure. rewrite Hcfg. cbn [Get].
      destruct resp as [ds dsd rd]. cbn [withDiags Diagnostics DataSourceData ResourceData] in *.
      rewrite Append_nil.
      destruct (IsUnknown (Host config));
        cbn [withDiags Diagnostics DataSourceData ResourceData].
      * rewrite HasError_Append, Hnone.
        cbn [orb fst snd withDiags Diagnostics DataSourceData ResourceData].
        rewrite HasError_Append, Hnone. auto.
      * rewrite Hnone. cbn [fst snd withDiags Diagnostics DataSourceData ResourceData]. auto.
    + destruct (IsUnknown (Host config)) eqn:Hknown.
      * left. unfold Configure. rewrite Hcfg. cbn [Get]. rewrite Hknown.
        destruct resp as [ds dsd rd].
        cbn [withDiags Diagnostics DataSourceData ResourceData] in *.
        rewrite Append_nil, HasError_Append_error by reflexivity.
        cbn [fst snd withDiags Diagnostics DataSourceData ResourceData].
        rewrite HasError_Append_error by reflexivity. auto.
      * rewrite (Configure_known ClientFromEnvironment req resp env config Hcfg Hnone Hknown).
        cbv zeta. destruct (String.eqb (resolveHost env config) EmptyString) eqn:Hhost.
        -- left. destruct resp as [ds dsd rd]. cbn.
           rewrite HasError_app. cbn. now rewrite orb_true_r.
        -- right. exists config. apply String.eqb_neq in Hhost. auto.
  - left. unfold Configure. rewrite Hcfg. cbn [Get zero OllamaProviderModel_zero Host IsUnknown].
    destruct resp as [ds dsd rd]. cbn [withDiags Diagnostics DataSourceData ResourceData].
    rewrite HasError_Append_error by reflexivity.
    cbn [fst snd withDiags Diagnostics DataSourceData ResourceData].
    rewrite HasError_Append_error by reflexivity. auto.
Qed.


Lemma resolveHost_stored env config :
  IsUnknown (Host config) = false ->
  resolveHost (<[OLLAMA_HOST := resolveHost env config]> env) config = resolveHost env config.
Proof.
  intros Hknown. unfold resolveHost at 1. destruct (Host config) as [| | s] eqn:Hs.
  - cbn. apply Getenv_insert_eq.
  - discriminate.
  - cbn. unfold resolveHost. now rewrite Hs.
Qed.

(** Handing the resolved host to [os.Setenv] does not change what is
    resolved, and doing it twice is doing it once. *)
Lemma resolveHost_Setenv env config :
  IsUnknown (Host config) = false ->
  resolveHost (fst (Setenv OLLAMA_HOST (resolveHost env config) env)) config
    = resolveHost env config.
Proof.
  intros Hknown. rewrite Setenv_host.
  destruct (holdsByte _ _); [reflexivity | now apply resolveHost_stored].
Qed.

Lemma Setenv_twice env value :
  fst (Setenv OLLAMA_HOST value (fst (Setenv OLLAMA_HOST value env)))
    = fst (Setenv OLLAMA_HOST value env).
Proof.
  rewrite (Setenv_host value env).
  destruct (holdsByte Ascii.zero value) eqn:Hnul; cbn [fst];
    rewrite Setenv_host, Hnul; cbn [fst].
  - reflexivity.
  - now rewrite insert_insert_eq.
Qed.

Lemma elem_of_Append_single (ds : list diag.Diagnostic) d x :
  x ∈ diag.Append ds [d] <-> x ∈ ds \/ x = d.
Proof.
  unfold diag.Append, diag.Contains. cbn. case_bool_decide as Hin.
  - split; [auto | intros [Hx | ->]; assumption].
  - rewrite elem_of_app, list_elem_of_singleton. reflexivity.
Qed.


(** X2. [Configure] hands out a client exactly when it ends without an
    error diagnostic.  With an error, both data fields of the response are
    as they were handed in; without, both hold the same non-nil client,
    the one built from the environment [Configure] leaves behind. *)
Theorem Configure_fails_closed req resp env :
  if diag.HasError (Diagnostics (fst (Configure ClientFromEnvironment req resp env)))
  then DataSourceData (fst (Configure ClientFromEnvironment req resp env))
         = DataSourceData resp
       /\ ResourceData (fst (Configure ClientFromEnvironment req resp env))
          = ResourceData resp
  else exists c,
         ClientFromEnvironment (snd (Configure ClientFromEnvironment req resp env)) = inr c
         /\ DataSourceData (fst (Configure ClientFromEnvironment req resp env))
            = AnyClientPtr (Some c)
         /\ ResourceData (fst (Configure ClientFromEnvironment req resp env))
            = AnyClientPtr (Some c).
Proof.
  destruct (Configure_outcome req resp env)
    as [(_ & Herr & Hds & Hrd) | (config & _ & Hnone & _ & _ & Hrun)].
  - rewrite Herr. auto.
  - rewrite Hrun. cbn [fst snd].
    destruct (ClientFromEnvironment _) as [e | c] eqn:Hclient.
    + destruct resp as [ds dsd rd]. cbn in *. rewrite HasError_app. cbn.
      rewrite orb_true_r. auto.
    + cbn [Diagnostics]. rewrite Hnone. exists c. auto.
Qed.

(** X3. An unknown host stops [Configure] at the first check: the
    unknown-host error is reported, the environment is left as it was,
    and the missing-host error is not added, whatever [OLLAMA_HOST]
    holds. *)
Theorem Configure_unknown_host req resp env config :
  Config req = Some config ->
  IsUnknown (Host config) = true ->
  Configure ClientFromEnvironment req resp env
    = (withDiags resp (diag.Append (Diagnostics resp) [unknownHostDiagnostic]), env)
  /\ unknownHostDiagnostic
       ∈ Diagnostics (fst (Configure ClientFromEnvironment req resp env))
  /\ (missingHostDiagnostic ∉ Diagnostics resp ->
      missingHostDiagnostic
        ∉ Diagnostics (fst (Configure ClientFromEnvironment req resp env))).
Proof.
  intros Hcfg Hunknown.
  assert (Hrun : Configure ClientFromEnvironment req resp env
            = (withDiags resp (diag.Append (Diagnostics resp) [unknownHostDiagnostic]), env)).
  { unfold Configure. rewrite Hcfg. cbn [Get]. rewrite Hunknown.
    destruct resp as [ds dsd rd]. cbn [withDiags Diagnostics DataSourceData ResourceData].
    rewrite Append_nil. now rewrite HasError_Append_error by reflexivity. }
  rewrite Hrun. split; [reflexivity |]. destruct resp as [ds dsd rd]. cbn. split.
  - apply elem_of_Append_single. now right.
  - intros Hfresh Hin. apply elem_of_Append_single in Hin as [Hin | Hin];
      [contradiction | discriminate].
Qed.

(** X4. Configuring again is stable: run on the environment a first run
    left behind, [Configure] gives the same response and leaves that
    environment as it is. *)
Theorem Configure_again req resp env :
  Configure ClientFromEnvironment req resp
    (snd (Configure ClientFromEnvironment req resp env))
  = Configure ClientFromEnvironment req resp env.
Proof.
  destruct (Configure_outcome req resp env)
    as [(Henv & _) | (config & Hcfg & Hnone & Hknown & Hhost & Hrun)].
  - now rewrite Henv.
  - rewrite Hrun. cbn [snd].
    rewrite (Configure_known ClientFromEnvironment req resp _ config Hcfg Hnone Hknown).
    cbv zeta. rewrite (resolveHost_Setenv env config Hknown).
    rewrite (eqb_empty_false _ Hhost). now rewrite Setenv_twice.
Qed.

(** X5. After a provider configuration that ends without error, the
    Configure callbacks of the resource and of the data source, fed with
    the response's data fields, both store the client built from the
    updated environment, and add no diagnostic. *)
Theorem Configure_hands_client_on req resp env r d rresp dresp :
  diag.HasError (Diagnostics (fst (Configure ClientFromEnvironment req resp env))) = false ->
  exists c,
    ClientFromEnvironment (snd (Configure ClientFromEnvironment req resp env)) = inr c
    /\ Resource.Configure r
         (Resource.ConfigureRequest.mk
            (ResourceData (fst (Configure ClientFromEnvironment req resp env)))) rresp
       = (Resource.mkResource (Some c), rresp)
    /\ DataSource.Configure d
         (DataSource.ConfigureRequest.mk
            (DataSourceData (fst (Configure ClientFromEnvironment req resp env)))) dresp
       = (DataSource.mkDataSource (Some c), dresp).
Proof.
  intros Hok.
  destruct (Configure_outcome req resp env)
    as [(_ & Herr & _) | (config & _ & Hnone & _ & _ & Hrun)]; [congruence |].
  rewrite Hrun in Hok |- *. cbn [fst snd] in Hok |- *.
  destruct (ClientFromEnvironment _) as [e | c] eqn:Hclient.
  - exfalso. destruct resp as [ds dsd rd]. cbn in Hok. rewrite HasError_app in Hok.
    cbn in Hok. rewrite orb_true_r in Hok. discriminate.
  - exists c. split; [reflexivity |]. split; reflexivity.
Qed.

End ProviderFrame.

(** ** The resource callbacks, case by case *)

Section ResourceFrame.

Import Resource.

Context {D : Type} `{Daemon D}.

Lemma Create_cases r req resp (w : World D) :
  Create r req resp w =
    let resp1 := appendDiags resp (fst (Get (CreateRequest.Plan req))) in
    let plan := snd (Get (CreateRequest.Plan req)) in
    if diag.HasError (Response.Diagnostics resp1) then Some (resp1, w) else
    match client r with
    | None => None
    | Some c =>
        let pullReq :=
          api.PullRequest.mk (Some false) (ValueString (OllamaModelResource.Name plan)) in
        let pulled := servePull c pullReq PullResponseFn (daemon w) in
        Some (match fst pulled with
              | Some err =>
                  addError resp1 "Error pulling model"
                    ("Could not pull model, unexpected error: " +:+ Error err)
              | None => setState resp1 plan
              end,
              mkWorld (snd pulled) (calls w ++ [api.CallPull pullReq]))
    end.
Proof.
  unfold Create. destruct (Get (CreateRequest.Plan req)) as [diags plan]. cbn [fst snd].
  cbv zeta. destruct (diag.HasError _); [reflexivity |].
  destruct (client r) as [c |]; [| reflexivity].
  rewrite (bind_Some _ _ _ _ _ (Pull_run c _ PullResponseFn w)).
  now destruct (fst (servePull _ _ _ _)).
Qed.

Lemma Read_cases r req resp (w : World D) :
  Read r req resp w =
    let resp1 := appendDiags resp (fst (Get (ReadRequest.State req))) in
    let state := snd (Get (ReadRequest.State req)) in
    if diag.HasError (Response.Diagnostics resp1) then Some (resp1, w) else
    match client r with
    | None => None
    | Some c =>
        let name := ValueString (OllamaModelResource.Name state) in
        let showReq := api.ShowRequest.mk name in
        let shown := serveShow c showReq (daemon w) in
        Some (match fst shown with
              | inl err =>
                  if isNotFound err
                  then Response.mk None (Response.Diagnostics resp1)
                  else addError resp1 "Error Reading Ollama Model"
                         ("Could not read ollama model " +:+ name +:+ ": " +:+ Error err)
              | inr _ => setState resp1 state
              end,
              mkWorld (snd shown) (calls w ++ [api.CallShow showReq]))
    end.
Proof.
  unfold Read. destruct (Get (ReadRequest.State req)) as [diags state]. cbn [fst snd].
  cbv zeta. destruct (diag.HasError _); [reflexivity |].
  destruct (client r) as [c |]; [| reflexivity].
  rewrite (bind_Some _ _ _ _ _ (Show_run c _ w)).
  destruct (fst (serveShow _ _ _)) as [err | shown]; [| reflexivity].
  now destruct (isNotFound err).
Qed.

Lemma Delete_cases r req resp (w : World D) :
  Delete r req resp w =
    let resp1 := appendDiags resp (fst (Get (DeleteRequest.State req))) in
    let state := snd (Get (DeleteRequest.State req)) in
    if diag.HasError (Response.Diagnostics resp1) then Some (resp1, w) else
    match client r with
    | None => None
    | Some c =>
        let name := ValueString (OllamaModelResource.Name state) in
        let deleteReq := api.DeleteRequest.mk name in
        let deleted := serveDelete c deleteReq (daemon w) in
        Some (match fst deleted with
              | Some err =>
                  addError resp1 "Error deleting Ollama Model"
                    ("Could not delete ollama model " +:+ name +:+ ": " +:+ Error err)
              | None => resp1
              end,
              mkWorld (snd deleted) (calls w ++ [api.CallDelete deleteReq]))
    end.
Proof.
  unfold Delete. destruct (Get (DeleteRequest.State req)) as [diags state]. cbn [fst snd].
  cbv zeta. destruct (diag.HasError _); [reflexivity |].
  destruct (client r) as [c |]; [| reflexivity].
  rewrite (bind_Some _ _ _ _ _ (Delete_run c _ w)).
  now destruct (fst (serveDelete _ _ _)).
Qed.

Lemma Update_cases r req resp (w : World D) :
  Update r req resp w =
    let resp1 := appendDiags resp (fst (Get (UpdateRequest.State req))) in
    let state := snd (Get (UpdateRequest.State req)) in
    if diag.HasError (Response.Diagnostics resp1) then Some (resp1, w) else
    let resp2 := appendDiags resp1 (fst (Get (UpdateRequest.Plan req))) in
    let plan := snd (Get (UpdateRequest.Plan req)) in
    if diag.HasError (Response.Diagnostics resp2) then Some (resp2, w) else
    match client r with
    | None => None
    | Some c =>
        let oldName := ValueString (OllamaModelResource.Name state) in
        let deleteReq := api.DeleteRequest.mk oldName in
        let pullReq :=
          api.PullRequest.mk (Some false) (ValueString (OllamaModelResource.Name plan)) in
        let deleted := serveDelete c deleteReq (daemon w) in
        let pulled := servePull c pullReq PullResponseFn (snd deleted) in
        match fst deleted with
        | Some err =>
            Some (addError resp2 "Error deleting Ollama Model"
                    ("Could not delete ollama model " +:+ oldName +:+ ": " +:+ Error err),
                  mkWorld (snd deleted) (calls w ++ [api.CallDelete deleteReq]))
        | None =>
            Some (match fst pulled with
                  | Some err =>
                      addError resp2 "Error pulling model"
                        ("Could not pull model, unexpected error: " +:+ Error err)
                  | None => setState resp2 plan
                  end,
                  mkWorld (snd pulled)
                    (calls w ++ [api.CallDelete deleteReq; api.CallPull pullReq]))
        end
    end.
Proof.
  unfold Update. destruct (Get (UpdateRequest.State req)) as [diags state]. cbn [fst snd].
  cbv zeta. destruct (diag.HasError _); [reflexivity |].
  destruct (Get (UpdateRequest.Plan req)) as [diags' plan]. cbn [fst snd].
  destruct (diag.HasError _); [reflexivity |].
  destruct (client r) as [c |]; [| reflexivity].
  rewrite (bind_Some _ _ _ _ _ (Delete_run c _ w)).
  destruct (fst (serveDelete _ _ _)); [reflexivity |].
  rewrite (bind_Some _ _ _ _ _ (Pull_run c _ PullResponseFn _)).
  cbn [daemon calls]. rewrite <- app_assoc. cbn [app].
  now destruct (fst (servePull _ _ _ _)).
Qed.

Lemma State_appendDiags resp ds : Response.State (appendDiags resp ds) = Response.State resp.
Proof. reflexivity. Qed.

Lemma State_addError resp sum det : Response.State (addError resp sum det) = Response.State resp.
Proof. reflexivity. Qed.

Lemma Diagnostics_setState resp v :
  Response.Diagnostics (setState resp v) = Response.Diagnostics resp.
Proof. reflexivity. Qed.

Lemma appendDiags_prefix resp ds :
  Response.Diagnostics resp `prefix_of` Response.Diagnostics (appendDiags resp ds).
Proof. apply Append_prefix. Qed.

Lemma addError_prefix resp sum det :
  Response.Diagnostics resp `prefix_of` Response.Diagnostics (addError resp sum det).
Proof. apply Append_prefix. Qed.

Lemma HasError_addError resp sum det :
  diag.HasError (Response.Diagnostics (addError resp sum det)) = true.
Proof. now apply HasError_Append_error. Qed.

(** Decoding succeeds exactly on a request value that is not null, and
    then adds nothing to the diagnostics. *)
Lemma decode_ok resp (data : tfsdk_Data OllamaModelResource.t) :
  diag.HasError (Response.Diagnostics (appendDiags resp (fst (Get data)))) = false
  <-> diag.HasError (Response.Diagnostics resp) = false /\ exists v, data = Some v.
Proof.
  unfold appendDiags. cbn [Response.Diagnostics]. rewrite HasError_Append.
  destruct data as [v |]; cbn.
  - rewrite orb_false_r. split; [intros E; split; [exact E | now exists v] | now intros [E _]].
  - rewrite orb_true_r. split; [discriminate | intros [_ [v E]]; discriminate].
Qed.

Lemma decode_Some resp (v : OllamaModelResource.t) :
  appendDiags resp (fst (Get (Some v))) = resp.
Proof. now destruct resp. Qed.

(** Closes a branch in which the same test came out both ways. *)
Ltac clash Htrue :=
  exfalso;
  match goal with
  | Hfalse : _ = false |- _ =>
      discriminate (eq_trans (eq_sym Htrue) Hfalse)
  end.

(** Splits a run of a callback into the ways it can end. *)
Ltac split_run Hrun :=
  cbv zeta in Hrun;
  repeat match type of Hrun with
         | context [if ?b then _ else _] => destruct b eqn:?
         | context [match ?x with _ => _ end] => destruct x eqn:?
         end;
  try discriminate Hrun;
  injection Hrun as <- <-.

(** X6. [Delete] sends one delete for the state's name.  A daemon error
    becomes a diagnostic carrying its text; otherwise nothing is added.
    Either way the callback does not write the response's state. *)
Theorem Delete_outcome r c req resp state (w : World D) :
  client r = Some c ->
  DeleteRequest.State req = Some state ->
  diag.HasError (Response.Diagnostics resp) = false ->
  let name := ValueString (OllamaModelResource.Name state) in
  let deleteReq := api.DeleteRequest.mk name in
  let answer := serveDelete c deleteReq (daemon w) in
  exists resp',
    Delete r req resp w
      = Some (resp', mkWorld (snd answer) (calls w ++ [api.CallDelete deleteReq]))
    /\ Response.State resp' = Response.State resp
    /\ match fst answer with
       | Some err =>
           Response.Diagnostics resp'
           = Response.Diagnostics resp
             ++ [diag.NewErrorDiagnostic "Error deleting Ollama Model"
                   ("Could not delete ollama model " +:+ name +:+ ": " +:+ Error err)]
       | None => Response.Diagnostics resp' = Response.Diagnostics resp
       end.
Proof.
  intros Hclient Hstate Hnone name deleteReq answer.
  rewrite Delete_cases, Hstate, Hclient. cbv zeta. rewrite decode_Some, Hnone.
  cbn [Get snd]. fold name deleteReq answer.
  eexists. split; [reflexivity |]. destruct (fst answer) as [err |].
  - split; [reflexivity |]. now rewrite addError_run.
  - split; reflexivity.
Qed.

(** X7. No callback writes the state and reports an error at once: when
    [Create], [Read] or [Update] end with an error among the diagnostics,
    the response's state is the one handed in; [Delete] never writes
    it. *)
Theorem callbacks_error_keeps_state r resp resp' (w w' : World D) :
  (forall req, Create r req resp w = Some (resp', w') ->
     diag.HasError (Response.Diagnostics resp') = true ->
     Response.State resp' = Response.State resp)
  /\ (forall req, Read r req resp w = Some (resp', w') ->
     diag.HasError (Response.Diagnostics resp') = true ->
     Response.State resp' = Response.State resp)
  /\ (forall req, Update r req resp w = Some (resp', w') ->
     diag.HasError (Response.Diagnostics resp') = true ->
     Response.State resp' = Response.State resp)
  /\ (forall req, Delete r req resp w = Some (resp', w') ->
     Response.State resp' = Response.State resp).
Proof.
  repeat split; intros req Hrun.
  - rewrite Create_cases in Hrun. split_run Hrun; try reflexivity.
    intros Herr. rewrite Diagnostics_setState in Herr. clash Herr.
  - rewrite Read_cases in Hrun. split_run Hrun; try reflexivity.
    + intros Herr. cbn [Response.Diagnostics] in Herr. clash Herr.
    + intros Herr. rewrite Diagnostics_setState in Herr. clash Herr.
  - rewrite Update_cases in Hrun. split_run Hrun; try reflexivity.
    intros Herr. rewrite Diagnostics_setState in Herr. clash Herr.
  - rewrite Delete_cases in Hrun. split_run Hrun; reflexivity.
Qed.

(** X8. A callback that is handed a response already carrying an error,
    or a request whose plan or state is null, returns at once: nothing is
    sent, the daemon and the state are as they were, the error stays
    reported, and there is no panic even without a client. *)
Theorem callbacks_stop_on_error r resp (w : World D) :
  (forall req,
     diag.HasError (Response.Diagnostics resp) = true \/ CreateRequest.Plan req = None ->
     exists resp', Create r req resp w = Some (resp', w)
       /\ Response.State resp' = Response.State resp
       /\ diag.HasError (Response.Diagnostics resp') = true)
  /\ (forall req,
     diag.HasError (Response.Diagnostics resp) = true \/ ReadRequest.State req = None ->
     exists resp', Read r req resp w = Some (resp', w)
       /\ Response.State resp' = Response.State resp
       /\ diag.HasError (Response.Diagnostics resp') = true)
  /\ (forall req,
     diag.HasError (Response.Diagnostics resp) = true
     \/ UpdateRequest.State req = None \/ UpdateRequest.Plan req = None ->
     exists resp', Update r req resp w = Some (resp', w)
       /\ Response.State resp' = Response.State resp
       /\ diag.HasError (Response.Diagnostics resp') = true)
  /\ (forall req,
     diag.HasError (Response.Diagnostics resp) = true \/ DeleteRequest.State req = None ->
     exists resp', Delete r req resp w = Some (resp', w)
       /\ Response.State resp' = Response.State resp
       /\ diag.HasError (Response.Diagnostics resp') = true).
Proof.
  assert (Hbad : forall resp0 (data : tfsdk_Data OllamaModelResource.t),
            diag.HasError (Response.Diagnostics resp0) = true \/ data = None ->
            diag.HasError (Response.Diagnostics (appendDiags resp0 (fst (Get data)))) = true).
  { intros resp0 data Hcause.
    destruct (diag.HasError (Response.Diagnostics (appendDiags resp0 (fst (Get data)))))
      eqn:E; [reflexivity |].
    apply decode_ok in E as [E [v Hv]]. destruct Hcause; congruence. }
  repeat split; intros req Hcause.
  - rewrite Create_cases. cbv zeta. rewrite (Hbad _ _ Hcause).
    eexists. split; [reflexivity |]. split; [reflexivity | now apply Hbad].
  - rewrite Read_cases. cbv zeta. rewrite (Hbad _ _ Hcause).
    eexists. split; [reflexivity |]. split; [reflexivity | now apply Hbad].
  - rewrite Update_cases. cbv zeta.
    destruct (diag.HasError
                (Response.Diagnostics
                   (appendDiags resp (fst (Get (UpdateRequest.State req)))))) eqn:Hfirst.
    + eexists. split; [reflexivity |]. split; [reflexivity | exact Hfirst].
    + assert (Hplan : UpdateRequest.Plan req = None).
      { apply decode_ok in Hfirst as [E [v Hv]].
        destruct Hcause as [Hc | [Hc | Hc]]; congruence. }
      rewrite (Hbad _ _ (or_intror Hplan)).
      eexists. split; [reflexivity |]. split; [reflexivity | now apply Hbad; right].
  - rewrite Delete_cases. cbv zeta. rewrite (Hbad _ _ Hcause).
    eexists. split; [reflexivity |]. split; [reflexivity | now apply Hbad].
Qed.

(** X9. A callback panics exactly when it reaches its first daemon call
    on a receiver without a client: the client is nil, the response
    handed in has no error, and the plan and state it decodes are not
    null. *)
Theorem callbacks_panic_iff r resp (w : World D) :
  (forall req,
     Create r req resp w = None
     <-> client r = None /\ diag.HasError (Response.Diagnostics resp) = false
         /\ exists plan, CreateRequest.Plan req = Some plan)
  /\ (forall req,
     Read r req resp w = None
     <-> client r = None /\ diag.HasError (Response.Diagnostics resp) = false
         /\ exists state, ReadRequest.State req = Some state)
  /\ (forall req,
     Update r req resp w = None
     <-> client r = None /\ diag.HasError (Response.Diagnostics resp) = false
         /\ (exists state, UpdateRequest.State req = Some state)
         /\ exists plan, UpdateRequest.Plan req = Some plan)
  /\ (forall req,
     Delete r req resp w = None
     <-> client r = None /\ diag.HasError (Response.Diagnostics resp) = false
         /\ exists state, DeleteRequest.State req = Some state).
Proof.
  split; [| split; [| split]]; intros req; split.
  - intros Hrun. rewrite Create_cases in Hrun. cbv zeta in Hrun.
    destruct (diag.HasError _) eqn:E in Hrun; [discriminate |].
    apply decode_ok in E as [E Hv].
    destruct (client r); [discriminate | auto].
  - intros (Hclient & Hnone & plan & Hplan). rewrite Create_cases, Hplan. cbv zeta.
    now rewrite decode_Some, Hnone, Hclient.
  - intros Hrun. rewrite Read_cases in Hrun. cbv zeta in Hrun.
    destruct (diag.HasError _) eqn:E in Hrun; [discriminate |].
    apply decode_ok in E as [E Hv].
    destruct (client r); [discriminate | auto].
  - intros (Hclient & Hnone & state & Hstate). rewrite Read_cases, Hstate. cbv zeta.
    now rewrite decode_Some, Hnone, Hclient.
  - intros Hrun. rewrite Update_cases in Hrun. cbv zeta in Hrun.
    destruct (diag.HasError _) eqn:E in Hrun; [discriminate |].
    destruct (diag.HasError _) eqn:E' in Hrun; [discriminate |].
    apply decode_ok in E' as [_ Hplan]. apply decode_ok in E as [E Hstate].
    destruct (client r); [| auto].
    destruct (fst (serveDelete _ _ _)); discriminate.
  - intros (Hclient & Hnone & (state & Hstate) & plan & Hplan).
    rewrite Update_cases, Hstate, Hplan. cbv zeta.
    now rewrite !decode_Some, Hnone, Hclient.
  - intros Hrun. rewrite Delete_cases in Hrun. cbv zeta in Hrun.
    destruct (diag.HasError _) eqn:E in Hrun; [discriminate |].
    apply decode_ok in E as [E Hv].
    destruct (client r); [discriminate | auto].
  - intros (Hclient & Hnone & state & Hstate). rewrite Delete_cases, Hstate. cbv zeta.
    now rewrite decode_Some, Hnone, Hclient.
Qed.

Lemma decode_None resp :
  diag.HasError
    (Response.Diagnostics
       (appendDiags resp (fst (Get (None : tfsdk_Data OllamaModelResource.t))))) = true.
Proof. now apply HasError_Append_error. Qed.

(** X10. Create, then Read.  When the pull succeeds and the daemon then
    answers the show call for the same name, reading the state [Create]
    stored leaves it in place: the state is still the plan, no diagnostic
    is added, and the daemon has seen the pull followed by the show. *)
Theorem Create_then_Read r c plan resp (w : World D) info :
  client r = Some c ->
  diag.HasError (Response.Diagnostics resp) = false ->
  let name := ValueString (OllamaModelResource.Name plan) in
  let pullReq := api.PullRequest.mk (Some false) name in
  let pulled := servePull c pullReq PullResponseFn (daemon w) in
  let showReq := api.ShowRequest.mk name in
  let shown := serveShow c showReq (snd pulled) in
  fst pulled = None ->
  fst shown = inr info ->
  exists created w1,
    Create r (CreateRequest.mk (Some plan)) resp w = Some (created, w1)
    /\ Response.State created = Some plan
    /\ Read r (ReadRequest.mk (Response.State created))
         (Response.mk (Response.State created) []) w1
       = Some (Response.mk (Some plan) [],
               mkWorld (snd shown)
                 (calls w ++ [api.CallPull pullReq; api.CallShow showReq])).
Proof.
  intros Hclient Hnone name pullReq pulled showReq shown Hpulled Hshown.
  exists (setState resp plan), (mkWorld (snd pulled) (calls w ++ [api.CallPull pullReq])).
  split; [| split; [reflexivity |]].
  - rewrite Create_cases. cbn [CreateRequest.Plan]. cbv zeta.
    rewrite decode_Some, Hnone, Hclient. cbn [Get snd].
    fold name pullReq pulled. now rewrite Hpulled.
  - rewrite Read_cases. cbn [ReadRequest.State Response.State setState Set_ appendDiags].
    cbv zeta. cbn [Get fst snd appendDiags Response.Diagnostics Response.State].
    rewrite Append_nil. cbn [diag.HasError existsb]. rewrite Hclient.
    cbn [daemon calls]. fold name showReq shown. rewrite Hshown.
    rewrite <- app_assoc. reflexivity.
Qed.

(** X11. What each callback sends.  [Create] sends nothing or one pull
    for the planned name; [Read] nothing or one show for the state's
    name; [Delete] nothing or one delete for the state's name; [Update]
    nothing, or the delete for the old name, alone or followed by the
    pull for the new name.  When nothing is sent the world is as it
    was. *)
Theorem callbacks_send_only r resp resp' (w w' : World D) :
  (forall req, Create r req resp w = Some (resp', w') ->
     w' = w
     \/ exists plan, CreateRequest.Plan req = Some plan
          /\ calls w' = calls w
               ++ [api.CallPull
                     (api.PullRequest.mk (Some false)
                        (ValueString (OllamaModelResource.Name plan)))])
  /\ (forall req, Read r req resp w = Some (resp', w') ->
     w' = w
     \/ exists state, ReadRequest.State req = Some state
          /\ calls w' = calls w
               ++ [api.CallShow
                     (api.ShowRequest.mk (ValueString (OllamaModelResource.Name state)))])
  /\ (forall req, Update r req resp w = Some (resp', w') ->
     w' = w
     \/ exists state plan,
          UpdateRequest.State req = Some state /\ UpdateRequest.Plan req = Some plan
          /\ let deleteCall :=
                api.CallDelete
                  (api.DeleteRequest.mk (ValueString (OllamaModelResource.Name state))) in
             let pullCall :=
                api.CallPull
                  (api.PullRequest.mk (Some false)
                     (ValueString (OllamaModelResource.Name plan))) in
             calls w' = calls w ++ [deleteCall]
             \/ calls w' = calls w ++ [deleteCall; pullCall])
  /\ (forall req, Delete r req resp w = Some (resp', w') ->
     w' = w
     \/ exists state, DeleteRequest.State req = Some state
          /\ calls w' = calls w
               ++ [api.CallDelete
                     (api.DeleteRequest.mk (ValueString (OllamaModelResource.Name state)))]).
Proof.
  split; [| split; [| split]]; intros req Hrun.
  - rewrite Create_cases in Hrun. revert Hrun.
    destruct (CreateRequest.Plan req) as [plan |]; intros Hrun.
    + cbn [Get fst snd] in Hrun. split_run Hrun; [now left | right ..];
        exists plan; now split.
    + cbv zeta in Hrun. rewrite decode_None in Hrun. injection Hrun as <- <-. now left.
  - rewrite Read_cases in Hrun. revert Hrun.
    destruct (ReadRequest.State req) as [state |]; intros Hrun.
    + cbn [Get fst snd] in Hrun. split_run Hrun; [now left | right ..];
        exists state; now split.
    + cbv zeta in Hrun. rewrite decode_None in Hrun. injection Hrun as <- <-. now left.
  - rewrite Update_cases in Hrun. revert Hrun.
    destruct (UpdateRequest.State req) as [state |]; intros Hrun.
    + revert Hrun. destruct (UpdateRequest.Plan req) as [plan |]; intros Hrun.
      * cbn [Get fst snd] in Hrun.
        split_run Hrun;
          first [ now left
                | right; exists state, plan;
                  split; [reflexivity |]; split; [reflexivity |]; cbv zeta;
                  first [now left | now right] ].
      * cbv zeta in Hrun. destruct (diag.HasError _) in Hrun.
        -- injection Hrun as <- <-. now left.
        -- rewrite decode_None in Hrun. injection Hrun as <- <-. now left.
    + cbv zeta in Hrun. rewrite decode_None in Hrun. injection Hrun as <- <-. now left.
  - rewrite Delete_cases in Hrun. revert Hrun.
    destruct (DeleteRequest.State req) as [state |]; intros Hrun.
    + cbn [Get fst snd] in Hrun. split_run Hrun; [now left | right ..];
        exists state; now split.
    + cbv zeta in Hrun. rewrite decode_None in Hrun. injection Hrun as <- <-. now left.
Qed.

(** Proves that the diagnostics handed in are a prefix of those of a
    response built from them by the callbacks' steps. *)
Ltac grows :=
  lazymatch goal with
  | |- ?ds `prefix_of` ?ds => reflexivity
  | |- ?ds `prefix_of` diag.Append ?ds _ => apply Append_prefix
  | |- _ `prefix_of` Response.Diagnostics (addError ?y _ _) =>
      transitivity (Response.Diagnostics y); [grows | apply addError_prefix]
  | |- _ `prefix_of` Response.Diagnostics (setState ?y _) =>
      rewrite Diagnostics_setState; grows
  | |- _ `prefix_of` Response.Diagnostics (appendDiags ?y _) =>
      transitivity (Response.Diagnostics y); [grows | apply appendDiags_prefix]
  | |- _ `prefix_of` Response.Diagnostics (Response.mk _ _) =>
      cbn [Response.Diagnostics]; grows
  end.

(** X12. Diagnostics are only ever added: whatever a callback was handed
    is still there when it returns, in the same order and at the front. *)
Theorem callbacks_keep_diagnostics r resp resp' (w w' : World D) :
  (forall req, Create r req resp w = Some (resp', w') ->
     Response.Diagnostics resp `prefix_of` Response.Diagnostics resp')
  /\ (forall req, Read r req resp w = Some (resp', w') ->
     Response.Diagnostics resp `prefix_of` Response.Diagnostics resp')
  /\ (forall req, Update r req resp w = Some (resp', w') ->
     Response.Diagnostics resp `prefix_of` Response.Diagnostics resp')
  /\ (forall req, Delete r req resp w = Some (resp', w') ->
     Response.Diagnostics resp `prefix_of` Response.Diagnostics resp').
Proof.
  split; [| split; [| split]]; intros req Hrun.
  - rewrite Create_cases in Hrun. split_run Hrun; grows.
  - rewrite Read_cases in Hrun. split_run Hrun; grows.
  - rewrite Update_cases in Hrun. split_run Hrun; grows.
  - rewrite Delete_cases in Hrun. split_run Hrun; grows.
Qed.

End ResourceFrame.

(** ** The data source's Read, case by case *)

Section DataSourceFrame.

Import DataSource.

Context {D : Type} `{Daemon D}.

Variable Time_String : api.Time -> string.

Local Abbreviation Models := OllamaModelDataSourceModel.Models.

Lemma list_Read_cases d req resp (w : World D) :
  Read Time_String d req resp w =
    let resp1 := appendDiags resp (fst (Get (ReadRequest.Config req))) in
    let data := snd (Get (ReadRequest.Config req)) in
    if diag.HasError (ReadResponse.Diagnostics resp1) then Some (resp1, w) else
    match client d with
    | None => None
    | Some c =>
        let listed := serveList c (daemon w) in
        Some (match fst listed with
              | inl err =>
                  addError resp1 "Client Error"
                    ("Unable to read ollama models, got error: " +:+ Error err)
              | inr rsp =>
                  setState resp1
                    (snd (fold_left (rangeBody Time_String)
                            (elems (api.ListResponse.Models rsp)) (resp1, data)))
              end,
              mkWorld (snd listed) (calls w ++ [api.CallList]))
    end.
Proof.
  unfold Read. destruct (Get (ReadRequest.Config req)) as [diags data]. cbn [fst snd].
  cbv zeta. destruct (diag.HasError _); [reflexivity |].
  destruct (client d) as [c |]; [| reflexivity].
  rewrite (bind_Some _ _ _ _ _ (List_run c w)).
  destruct (fst (serveList _ _)) as [err | rsp]; [reflexivity |].
  destruct (range_run Time_String (elems (api.ListResponse.Models rsp))
              (appendDiags resp diags) data) as [Hfst _].
  destruct (fold_left _ _ _) as [resp2 data2]. cbn [fst snd] in Hfst |- *.
  now subst resp2.
Qed.

Lemma list_decode_ok resp (data : tfsdk_Data OllamaModelDataSourceModel.t) :
  diag.HasError (ReadResponse.Diagnostics (appendDiags resp (fst (Get data)))) = false
  <-> diag.HasError (ReadResponse.Diagnostics resp) = false /\ exists v, data = Some v.
Proof.
  unfold appendDiags. cbn [ReadResponse.Diagnostics]. rewrite HasError_Append.
  destruct data as [v |]; cbn.
  - rewrite orb_false_r. split; [intros E; split; [exact E | now exists v] | now intros [E _]].
  - rewrite orb_true_r. split; [discriminate | intros [_ [v E]]; discriminate].
Qed.

Lemma list_Diagnostics_setState resp v :
  ReadResponse.Diagnostics (setState resp v) = ReadResponse.Diagnostics resp.
Proof. reflexivity. Qed.

Lemma range_Some ms : forall resp data,
  Models data <> None ->
  Models (snd (fold_left (rangeBody Time_String) ms (resp, data))) <> None.
Proof.
  induction ms as [| m ms IH]; intros resp data Hsome; [exact Hsome |].
  cbn [fold_left]. rewrite rangeBody_run. apply IH. discriminate.
Qed.

(** The loop leaves a nil [data.Models] nil only when it has nothing to
    range over. *)
Lemma range_nil ms resp data :
  Models (snd (fold_left (rangeBody Time_String) ms (resp, data))) = None
  <-> Models data = None /\ ms = [].
Proof.
  destruct ms as [| m ms].
  - cbn. split; [auto | now intros [E _]].
  - cbn [fold_left]. rewrite rangeBody_run. split.
    + intros Hnil. exfalso. revert Hnil. apply range_Some. discriminate.
    + intros [_ E]. discriminate.
Qed.

(** X13. [Read] of the data source ends in one of three ways and in each
    keeps what it was handed: the diagnostics it got stay at the front of
    those it returns; it sends nothing, leaving the world as it was, or
    exactly one list call; and when it ends with an error the state is
    not written. *)
Theorem list_Read_frame d req resp resp' (w w' : World D) :
  Read Time_String d req resp w = Some (resp', w') ->
  ReadResponse.Diagnostics resp `prefix_of` ReadResponse.Diagnostics resp'
  /\ (w' = w \/ calls w' = calls w ++ [api.CallList])
  /\ (diag.HasError (ReadResponse.Diagnostics resp') = true ->
      ReadResponse.State resp' = ReadResponse.State resp).
Proof.
  intros Hrun. rewrite list_Read_cases in Hrun. cbv zeta in Hrun.
  destruct (diag.HasError _) eqn:Hfirst in Hrun.
  - injection Hrun as <- <-. split; [apply Append_prefix |]. split; [now left | reflexivity].
  - destruct (client d) as [c |]; [| discriminate]. injection Hrun as <- <-.
    split; [| split; [now right |]].
    + destruct (fst (serveList _ _)) as [err | rsp].
      * transitivity (ReadResponse.Diagnostics
                        (appendDiags resp (fst (Get (ReadRequest.Config req)))));
          apply Append_prefix.
      * rewrite list_Diagnostics_setState. apply Append_prefix.
    + destruct (fst (serveList _ _)) as [err | rsp]; [reflexivity |].
      intros Herr. exfalso. rewrite list_Diagnostics_setState in Herr.
      exact (eq_true_false_abs _ Herr Hfirst).
Qed.

(** X14. [Read] of the data source panics exactly when the client is
    nil while the response handed in has no error and the configuration
    decodes; in every other case it returns. *)
Theorem list_Read_panic_iff d req resp (w : World D) :
  Read Time_String d req resp w = None
  <-> client d = None
      /\ diag.HasError (ReadResponse.Diagnostics resp) = false
      /\ exists data, ReadRequest.Config req = Some data.
Proof.
  rewrite list_Read_cases. cbv zeta. split.
  - intros Hrun. destruct (diag.HasError _) eqn:E in Hrun; [discriminate |].
    apply list_decode_ok in E as [E Hv].
    destruct (client d); [discriminate | auto].
  - intros (Hclient & Hnone & data & Hdata).
    rewrite (proj2 (list_decode_ok resp _) (conj Hnone (ex_intro _ data Hdata))).
    now rewrite Hclient.
Qed.

(** X15. Nil and empty.  On a successful list call the models slice
    [Read] stores is nil exactly when the decoded configuration's slice
    is nil and the daemon lists no model; with no model listed the stored
    data is the decoded configuration itself. *)
Theorem list_Read_nil_models d c req resp data0 rsp (w : World D) :
  client d = Some c ->
  ReadRequest.Config req = Some data0 ->
  diag.HasError (ReadResponse.Diagnostics resp) = false ->
  fst (serveList c (daemon w)) = inr rsp ->
  exists data',
    Read Time_String d req resp w
      = Some (ReadResponse.mk (Some data') (ReadResponse.Diagnostics resp),
              mkWorld (snd (serveList c (daemon w))) (calls w ++ [api.CallList]))
    /\ (Models data' = None
        <-> Models data0 = None /\ elems (api.ListResponse.Models rsp) = [])
    /\ (elems (api.ListResponse.Models rsp) = [] -> data' = data0).
Proof.
  intros Hclient Hcfg Hnone Hlist.
  rewrite list_Read_cases, Hcfg, Hclient. cbv zeta. cbn [Get fst snd].
  assert (Hresp : appendDiags resp [] = resp) by now destruct resp.
  rewrite Hresp, Hnone, Hlist.
  eexists. split; [reflexivity |]. split.
  - apply range_nil.
  - intros Hzero. now rewrite Hzero.
Qed.

End DataSourceFrame.

(** ** What the provider offers *)

(** X16. Whatever the version, the provider names itself [ollama] and
    reports that version; the resource and the data source both take the
    type name [ollama_model] from it; and every resource and data source
    it constructs starts without a client. *)
Theorem provider_offers version presp r d rresp dresp :
  let p := OllamaProvider.New version tt in
  let meta := OllamaProvider.Metadata p presp in
  OllamaProvider.MetadataResponse.Version meta = version
  /\ Resource.MetadataResponse.TypeName
       (Resource.Metadata r
          (Resource.MetadataRequest.mk (OllamaProvider.MetadataResponse.TypeName meta))
          rresp) = "ollama_model"
  /\ DataSource.MetadataResponse.TypeName
       (DataSource.Metadata d
          (DataSource.MetadataRequest.mk (OllamaProvider.MetadataResponse.TypeName meta))
          dresp) = "ollama_model"
  /\ Forall (fun make => Resource.client (make tt) = None) (OllamaProvider.Resources p)
  /\ Forall (fun make => DataSource.client (make tt) = None) (OllamaProvider.DataSources p).
Proof.
  cbv zeta. repeat split; repeat constructor.
Qed.

(** ** Further runs against the in-memory daemon *)

(** X3 at work: an unknown host, with a usable host in the environment. *)
Lemma Configure_unknown_host_witness :
  Provider.Configure Examples.clientFromEnv (Examples.configHost StringUnknown)
    Examples.freshProviderResponse Examples.envRemote
  = (Provider.mkConfigureResponse [Provider.unknownHostDiagnostic] AnyNil AnyNil,
     Examples.envRemote).
Proof.
  destruct (Configure_unknown_host Examples.clientFromEnv
              (Examples.configHost StringUnknown) Examples.freshProviderResponse
              Examples.envRemote (mkOllamaProviderModel StringUnknown)
              eq_refl eq_refl) as (Hrun & _).
  exact Hrun.
Defined.

(** X5 at work: the resource and the data source receive the client bound
    to the configured host. *)
Lemma Configure_hands_client_on_witness :
  exists c,
    c = Examples.handle
    /\ Resource.Configure Resource.NewOllamaModelResource
         (Resource.ConfigureRequest.mk
            (Provider.ResourceData
               (fst (Provider.Configure Examples.clientFromEnv
                       (Examples.configHost (StringValue Examples.localhost))
                       Examples.freshProviderResponse Examples.envRemote))))
         (Resource.ConfigureResponse.mk [])
       = (Resource.mkResource (Some c), Resource.ConfigureResponse.mk []).
Proof.
  destruct (Configure_hands_client_on Examples.clientFromEnv
              (Examples.configHost (StringValue Examples.localhost))
              Examples.freshProviderResponse Examples.envRemote
              Resource.NewOllamaModelResource DataSource.NewOllamaModelDataSource
              (Resource.ConfigureResponse.mk []) (DataSource.ConfigureResponse.mk [])
              eq_refl) as (c & Hbuilt & Hres & _).
  exists c. split; [| exact Hres].
  vm_compute in Hbuilt. now injection Hbuilt as <-.
Defined.

(** X6 at work: deleting [llama2], which the daemon holds. *)
Lemma Delete_outcome_witness :
  exists resp',
    Resource.Delete Examples.configuredResource
      (Resource.DeleteRequest.mk (Some (Examples.named "llama2")))
      (Resource.Response.mk (Some (Examples.named "llama2")) [])
      (Examples.holding ["llama2"])
    = Some (resp', mkWorld [] [api.CallDelete (api.DeleteRequest.mk "llama2")])
    /\ Resource.Response.State resp' = Some (Examples.named "llama2")
    /\ Resource.Response.Diagnostics resp' = [].
Proof.
  destruct (Delete_outcome (D := Registry.t)
              Examples.configuredResource Examples.handle
              (Resource.DeleteRequest.mk (Some (Examples.named "llama2")))
              (Resource.Response.mk (Some (Examples.named "llama2")) [])
              (Examples.named "llama2") (Examples.holding ["llama2"])
              eq_refl eq_refl eq_refl) as (resp' & Hrun & Hstate & Hdiags).
  exists resp'. split; [exact Hrun |]. split; [exact Hstate | exact Hdiags].
Defined.

(** X10 at work: creating [llama2] on an empty daemon, then reading it. *)
Lemma Create_then_Read_witness :
  exists created w1,
    Resource.Create Examples.configuredResource
      (Resource.CreateRequest.mk (Some (Examples.named "llama2")))
      Examples.freshResponse (Examples.holding [])
    = Some (created, w1)
    /\ Resource.Read Examples.configuredResource
         (Resource.ReadRequest.mk (Resource.Response.State created))
         (Resource.Response.mk (Resource.Response.State created) []) w1
       = Some (Resource.Response.mk (Some (Examples.named "llama2")) [],
               mkWorld [Registry.pulled "llama2"]
                 [api.CallPull (api.PullRequest.mk (Some false) "llama2");
                  api.CallShow (api.ShowRequest.mk "llama2")]).
Proof.
  assert (Hpulled :
    fst (servePull Examples.handle (api.PullRequest.mk (Some false) "llama2")
           Resource.PullResponseFn (daemon (Examples.holding [])))
    = None) by (vm_compute; reflexivity).
  assert (Hshown :
    fst (serveShow Examples.handle (api.ShowRequest.mk "llama2")
           (snd (servePull Examples.handle (api.PullRequest.mk (Some false) "llama2")
                   Resource.PullResponseFn (daemon (Examples.holding [])))))
    = inr Examples.shownPulled) by (vm_compute; reflexivity).
  destruct (Create_then_Read (D := Registry.t)
              Examples.configuredResource Examples.handle (Examples.named "llama2")
              Examples.freshResponse (Examples.holding []) Examples.shownPulled
              eq_refl eq_refl Hpulled Hshown) as (created & w1 & Hcreate & _ & Hread).
  exists created, w1. split; [exact Hcreate | exact Hread].
Defined.

(** X13 at work: listing on a daemon that holds [m1]. *)
Lemma list_Read_frame_witness :
  DataSource.ReadResponse.Diagnostics Examples.freshReadResponse
    `prefix_of` DataSource.ReadResponse.Diagnostics
                  (DataSource.ReadResponse.mk (Some Examples.listedM1) [])
  /\ (mkWorld [Examples.m1] [api.CallList] = mkWorld [Examples.m1] []
      \/ calls (mkWorld [Examples.m1] [api.CallList])
         = calls (mkWorld [Examples.m1] []) ++ [api.CallList]).
Proof.
  assert (Hrun :
    DataSource.Read Examples.timeString Examples.configuredDataSource
      Examples.listRequest Examples.freshReadResponse (mkWorld [Examples.m1] [])
    = Some (DataSource.ReadResponse.mk (Some Examples.listedM1) [],
            mkWorld [Examples.m1] [api.CallList])) by (vm_compute; reflexivity).
  destruct (list_Read_frame (D := Registry.t) Examples.timeString
              Examples.configuredDataSource Examples.listRequest
              Examples.freshReadResponse
              (DataSource.ReadResponse.mk (Some Examples.listedM1) [])
              (mkWorld [Examples.m1] []) (mkWorld [Examples.m1] [api.CallList])
              Hrun) as (Hprefix & Hcalls & _).
  split; [exact Hprefix | exact Hcalls].
Defined.

(** X15 at work: a daemon without models leaves the nil slice nil. *)
Lemma list_Read_nil_models_witness :
  exists data',
    DataSource.Read Examples.timeString Examples.configuredDataSource
      Examples.listRequest Examples.freshReadResponse (mkWorld ([] : Registry.t) [])
    = Some (DataSource.ReadResponse.mk (Some data') [], mkWorld [] [api.CallList])
    /\ OllamaModelDataSourceModel.Models data' = None.
Proof.
  assert (Hlist :
    fst (serveList Examples.handle (daemon (mkWorld ([] : Registry.t) [])))
    = inr (api.ListResponse.mk (Some []))) by (vm_compute; reflexivity).
  destruct (list_Read_nil_models (D := Registry.t) Examples.timeString
              Examples.configuredDataSource Examples.handle
              Examples.listRequest Examples.freshReadResponse
              (OllamaModelDataSourceModel.mk None)
              (api.ListResponse.mk (Some [])) (mkWorld ([] : Registry.t) [])
              eq_refl eq_refl eq_refl Hlist) as (data' & Hrun & Hnil & _).
  exists data'. split; [exact Hrun |]. apply Hnil. split; reflexivity.
Defined.

(** X7 at work: a pull the daemon rejects leaves the state unset. *)
Lemma callbacks_error_keeps_state_witness :
  Resource.Response.State Examples.rejected
    = Resource.Response.State Examples.freshResponse.
Proof.
  assert (Hrun :
    Resource.Create Examples.configuredResource
      (Resource.CreateRequest.mk (Some (Examples.named EmptyString)))
      Examples.freshResponse (Examples.holding [])
    = Some (Examples.rejected,
            mkWorld [] [api.CallPull (api.PullRequest.mk (Some false) EmptyString)]))
    by (vm_compute; reflexivity).
  exact (proj1 (callbacks_error_keeps_state (D := Registry.t)
                  Examples.configuredResource Examples.freshResponse Examples.rejected
                  (Examples.holding [])
                  (mkWorld [] [api.CallPull (api.PullRequest.mk (Some false) EmptyString)]))
           _ Hrun eq_refl).
Defined.

(** X12 at work, on the same rejected pull. *)
Lemma callbacks_keep_diagnostics_witness :
  Resource.Response.Diagnostics Examples.freshResponse
    `prefix_of` Resource.Response.Diagnostics Examples.rejected.
Proof.
  assert (Hrun :
    Resource.Create Examples.configuredResource
      (Resource.CreateRequest.mk (Some (Examples.named EmptyString)))
      Examples.freshResponse (Examples.holding [])
    = Some (Examples.rejected,
            mkWorld [] [api.CallPull (api.PullRequest.mk (Some false) EmptyString)]))
    by (vm_compute; reflexivity).
  exact (proj1 (callbacks_keep_diagnostics (D := Registry.t)
                  Examples.configuredResource Examples.freshResponse Examples.rejected
                  (Examples.holding [])
                  (mkWorld [] [api.CallPull (api.PullRequest.mk (Some false) EmptyString)]))
           _ Hrun).
Defined.

(** X8 at work: a null plan on a resource without a client. *)
Lemma callbacks_stop_on_error_witness :
  exists resp',
    Resource.Create Resource.NewOllamaModelResource (Resource.CreateRequest.mk None)
      Examples.freshResponse (Examples.holding ["llama2"])
    = Some (resp', Examples.holding ["llama2"])
    /\ Resource.Response.State resp' = None
    /\ diag.HasError (Resource.Response.Diagnostics resp') = true.
Proof.
  exact (proj1 (callbacks_stop_on_error (D := Registry.t)
                  Resource.NewOllamaModelResource Examples.freshResponse
                  (Examples.holding ["llama2"]))
           (Resource.CreateRequest.mk None) (or_intror eq_refl)).
Defined.

(** X11 at work: an update whose pull the daemon rejects has sent the
    delete and the pull, in that order. *)
Lemma callbacks_send_only_witness :
  mkWorld ([] : Registry.t)
    [api.CallDelete (api.DeleteRequest.mk "old-model");
     api.CallPull (api.PullRequest.mk (Some false) EmptyString)]
  = Examples.holding ["old-model"]
  \/ exists state plan,
       Some (Examples.named "old-model") = Some state
       /\ Some (Examples.named EmptyString) = Some plan
       /\ (calls (mkWorld ([] : Registry.t)
                    [api.CallDelete (api.DeleteRequest.mk "old-model");
                     api.CallPull (api.PullRequest.mk (Some false) EmptyString)])
           = calls (Examples.holding ["old-model"])
             ++ [api.CallDelete
                   (api.DeleteRequest.mk (ValueString (OllamaModelResource.Name state)))]
           \/ calls (mkWorld ([] : Registry.t)
                       [api.CallDelete (api.DeleteRequest.mk "old-model");
                        api.CallPull (api.PullRequest.mk (Some false) EmptyString)])
              = calls (Examples.holding ["old-model"])
                ++ [api.CallDelete
                      (api.DeleteRequest.mk (ValueString (OllamaModelResource.Name state)));
                    api.CallPull
                      (api.PullRequest.mk (Some false)
                         (ValueString (OllamaModelResource.Name plan)))]).
Proof.
  assert (Hrun :
    Resource.Update Examples.configuredResource
      (Resource.UpdateRequest.mk (Some (Examples.named EmptyString))
         (Some (Examples.named "old-model")))
      (Resource.Response.mk (Some (Examples.named "old-model")) [])
      (Examples.holding ["old-model"])
    = Some (Resource.Response.mk (Some (Examples.named "old-model"))
              (Resource.Response.Diagnostics Examples.rejected),
            mkWorld []
              [api.CallDelete (api.DeleteRequest.mk "old-model");
               api.CallPull (api.PullRequest.mk (Some false) EmptyString)]))
    by (vm_compute; reflexivity).
  exact (proj1 (proj2 (proj2 (callbacks_send_only (D := Registry.t)
                  Examples.configuredResource
                  (Resource.Response.mk (Some (Examples.named "old-model")) [])
                  (Resource.Response.mk (Some (Examples.named "old-model"))
                     (Resource.Response.Diagnostics Examples.rejected))
                  (Examples.holding ["old-model"])
                  (mkWorld []
                     [api.CallDelete (api.DeleteRequest.mk "old-model");
                      api.CallPull (api.PullRequest.mk (Some false) EmptyString)]))))
           _ Hrun).
Defined.
